(** * Order-management backend (server.js): normalizer, aggregator, lifecycle

    A shallow embedding of [server.js].  The source file holds two
    revisions of the server, one after the other: lines 1-298 (called the
    earlier revision here) and lines 299-532 (the revised one).  The order
    helper [buildParsedItems] and the order routes POST, PUT and PATCH are
    the same code in both; the product-creation route and the order DELETE
    route differ and are embedded once per revision, in the modules
    [Earlier] and [Revised].

    JavaScript numbers are IEEE-754 binary64 values: they are embedded as
    Rocq's primitive floats, whose operations are exactly binary64
    arithmetic.  Request bodies are arbitrary JSON, embedded as [value]. *)

From Stdlib Require Import Floats Ascii String.
From stdpp Require Import gmap strings list pretty sorting.

Local Open Scope string_scope.
Set Warnings "-register-all".

(** ** JavaScript values *)

(** What [express.json()] can put in [req.body], plus [undefined] (the
    result of reading a property that is not there). *)
Inductive value : Type :=
  | VUndefined
  | VNull
  | VBool (b : bool)
  | VNum (x : float)
  | VStr (s : string)
  | VArr (elems : list value)
  | VObj (fields : list (string * value)).

(** The built-ins of the language that the server calls and that work on
    the characters of a string.  They are part of the JavaScript engine,
    not of this repository, and are taken as given. *)
Class JsRuntime := {
  (** ECMA-262 StringToNumber: the number a string denotes, [NaN] when it
      denotes none *)
  StringToNumber : string → float;
  (** ECMA-262 Number::toString in radix 10 *)
  NumberToString : float → string;
  (** String.prototype.trim *)
  trim : string → string
}.

(** Own property of an object made by the JSON parser.  [fields] lists the
    properties of the parsed object, each key once; should a list repeat a
    key, its first binding is the one read. *)
Fixpoint own (fields : list (string * value)) (k : string) : option value :=
  match fields with
  | [] => None
  | (k', v) :: rest => if String.eqb k k' then Some v else own rest k
  end.

(** [v.k] for the keys this server reads ([qty], [price], [mrp],
    [productId], [productName], [note], [shopId], [shopName], [items],
    [status], [name], [salePrice]).  None of them is a property of the
    Object, Array, String, Number or Boolean prototypes, so reading them
    off anything but an object with that own key gives [undefined];
    reading a property of [null] or [undefined] throws a TypeError
    ([None]). *)
Definition prop (v : value) (k : string) : option value :=
  match v with
  | VUndefined | VNull => None
  | VObj fields => Some (default VUndefined (own fields k))
  | _ => Some VUndefined
  end.

(** ToBoolean: the truthiness used by [!x] and [x || y]. *)
Definition truthy_num (x : float) : bool :=
  negb (PrimFloat.is_nan x || PrimFloat.is_zero x).

Definition ToBoolean (v : value) : bool :=
  match v with
  | VUndefined | VNull => false
  | VBool b => b
  | VNum x => truthy_num x
  | VStr s => negb (String.eqb s "")
  | VArr _ | VObj _ => true
  end.

(** [a || b] on values, and on two operands known to be numbers. *)
Definition js_or (a b : value) : value := if ToBoolean a then a else b.
Definition num_or (x d : float) : float := if truthy_num x then x else d.

(** [x == null] *)
Definition is_nullish (v : value) : bool :=
  match v with
  | VUndefined | VNull => true
  | _ => false
  end.

Definition isArray (v : value) : bool :=
  match v with
  | VArr _ => true
  | _ => false
  end.

Section Coercions.
Context `{JsRuntime}.

(** ToString.  An array is joined with commas, [undefined] and [null]
    elements giving the empty string.  An object made by the JSON parser
    inherits [Object.prototype.toString] unless it has an own [toString]
    key; that own property is never callable and
    [Object.prototype.valueOf] gives back the object, so the conversion
    throws a TypeError ([None]). *)
Fixpoint ToString (v : value) : option string :=
  match v with
  | VUndefined => Some "undefined"
  | VNull => Some "null"
  | VBool true => Some "true"
  | VBool false => Some "false"
  | VNum x => Some (NumberToString x)
  | VStr s => Some s
  | VArr elems =>
      (fix join (l : list value) : option string :=
         match l with
         | [] => Some ""
         | x :: rest =>
             s ← (if is_nullish x then Some "" else ToString x);
             match rest with
             | [] => Some s
             | _ => t ← join rest; Some (s ++ "," ++ t)
             end
         end) elems
  | VObj fields =>
      match own fields "toString" with
      | Some _ => None
      | None => Some "[object Object]"
      end
  end.

(** ToNumber, which is what [Number(v)] computes.  Arrays and objects
    go through ToPrimitive: [valueOf] gives back the object, so the
    string conversion decides. *)
Definition ToNumber (v : value) : option float :=
  match v with
  | VUndefined => Some PrimFloat.nan
  | VNull => Some PrimFloat.zero
  | VBool true => Some PrimFloat.one
  | VBool false => Some PrimFloat.zero
  | VNum x => Some x
  | VStr s => Some (StringToNumber s)
  | VArr _ | VObj _ => s ← ToString v; Some (StringToNumber s)
  end.
End Coercions.

(** ** Order helper: [buildParsedItems] (lines 135-156 and 426-443) *)

(** The object the [map] callback returns. *)
Record OrderItem := {
  productId : value;
  productName : value;
  mrp : float;
  price : float;
  qty : float;
  lineTotal : float;
  note : value
}.

Section Normalizer.
Context `{JsRuntime}.

(** The arrow function given to [items.map]; [None] when evaluating it
    throws. *)
Definition parseItem (item : value) : option OrderItem :=
  q ← prop item "qty" ≫= ToNumber;
  let qty := num_or q PrimFloat.one in
  p ← prop item "price" ≫= ToNumber;
  let price := num_or p PrimFloat.zero in
  pid ← prop item "productId";
  pname ← prop item "productName";
  m ← prop item "mrp" ≫= ToNumber;
  n ← prop item "note";
  Some {| productId := js_or pid VNull;
          productName := pname;
          mrp := num_or m PrimFloat.zero;
          price := price;
          qty := qty;
          lineTotal := PrimFloat.mul price qty;
          note := js_or n (VStr "") |}.

(** [parsedItems.reduce((sum, it) => sum + (it.lineTotal || 0), 0)] *)
Definition totalOf (parsedItems : list OrderItem) : float :=
  fold_left (λ sum it, PrimFloat.add sum (num_or (lineTotal it) PrimFloat.zero))
            parsedItems PrimFloat.zero.

Definition buildParsedItems (items : list value) : option (list OrderItem * float) :=
  parsedItems ← mapM parseItem items;
  Some (parsedItems, totalOf parsedItems).
End Normalizer.

(** The object of line 139 (430 in the revised server) as a value, for
    handing normalized items to the normalizer again. *)
Definition item_to_value (r : OrderItem) : value :=
  VObj [("productId", productId r);
        ("productName", productName r);
        ("mrp", VNum (mrp r));
        ("price", VNum (price r));
        ("qty", VNum (qty r));
        ("lineTotal", VNum (lineTotal r));
        ("note", note r)].

(** The aggregator in the words of the specification: the total of the
    empty sequence is 0, and each further item adds its [lineTotal], or 0
    when that is falsy, to the total of the items before it. *)
Definition contribution (it : OrderItem) : float :=
  if truthy_num (lineTotal it) then lineTotal it else PrimFloat.zero.

Definition sum_lineTotals (l : list OrderItem) : float :=
  foldr (λ it before, PrimFloat.add before (contribution it)) PrimFloat.zero (rev l).

(** ** The record store

    Mongoose and MongoDB are not part of this repository.  The calls the
    routes make are embedded from the schemas declared in the source (lines
    28-61 and 326-361) and from the documented behaviour of the calls: the
    collection is a finite map from [_id] to document, a call throws when
    the store cannot be reached or a value cannot be cast to the schema,
    and a document is recorded as it was handed over: the casts of its
    values to the schema, and the [_id] Mongoose gives each line item, are
    not part of it. *)

Record Order := {
  shopId : value;
  shopName : value;
  items : list OrderItem;
  totalAmount : float;
  status : value;
  createdAt : N
}.

(** [price] is required by the earlier schema (line 36) and optional in the
    revised one, which adds [salePrice] (lines 335-336). *)
Record Product := {
  pr_name : string;
  pr_mrp : float;
  pr_price : option float;
  pr_salePrice : option float;
  pr_createdAt : N
}.

Record Store := {
  orders : gmap N Order;
  products : gmap N Product;
  online : bool
}.

(** The update document of [findByIdAndUpdate]: the keys the object literal
    lists. *)
Record OrderUpdate := {
  u_shopId : option value;
  u_shopName : option value;
  u_items : option (list OrderItem);
  u_totalAmount : option float;
  u_status : option value
}.

(** What depends on the store's client library: the cast of a string to an
    ObjectId (a 12-byte number), and whether a document or an update casts
    to its schema and passes the validators that run. *)
Class Mongoose := {
  castObjectId : string → option N;
  validOrder : Order → bool;
  validProduct : Product → bool;
  castUpdate : OrderUpdate → bool
}.

Definition set_orders (m : gmap N Order) (st : Store) : Store :=
  {| orders := m; products := products st; online := online st |}.

Definition set_products (m : gmap N Product) (st : Store) : Store :=
  {| orders := orders st; products := m; online := online st |}.

(** A key whose value is [undefined] is left out of the update (Mongoose 6
    and later). *)
Definition set_path (new : option value) (old : value) : value :=
  match new with
  | Some v => if v is VUndefined then old else v
  | None => old
  end.

Definition apply_update (u : OrderUpdate) (o : Order) : Order :=
  {| shopId := set_path (u_shopId u) (shopId o);
     shopName := set_path (u_shopName u) (shopName o);
     items := default (items o) (u_items u);
     totalAmount := default (totalAmount o) (u_totalAmount u);
     status := set_path (u_status u) (status o);
     createdAt := createdAt o |}.

Section StoreCalls.
Context `{Mongoose}.

(** [doc.save()] of a new document whose [_id] is [oid]: [None] when it
    rejects. *)
Definition save_order (oid : N) (o : Order) (st : Store) : option Store :=
  if online st && validOrder o && bool_decide (orders st !! oid = None)
  then Some (set_orders (<[oid := o]> (orders st)) st)
  else None.

Definition save_product (pid : N) (p : Product) (st : Store) : option Store :=
  if online st && validProduct p && bool_decide (products st !! pid = None)
  then Some (set_products (<[pid := p]> (products st)) st)
  else None.

(** [Order.findByIdAndUpdate(id, u, { new: true })]: the updated document,
    or [null] when no document has that [_id]; [None] when it rejects. *)
Definition findByIdAndUpdate (id : string) (u : OrderUpdate) (st : Store)
  : option (option (N * Order) * Store) :=
  if online st && castUpdate u then
    oid ← castObjectId id;
    match orders st !! oid with
    | Some o =>
        let o' := apply_update u o in
        Some (Some (oid, o'), set_orders (<[oid := o']> (orders st)) st)
    | None => Some (None, st)
    end
  else None.

(** [Order.deleteOne({ _id: id })]: the [deletedCount] of its result. *)
Definition deleteOne (id : string) (st : Store) : option (N * Store) :=
  if online st then
    oid ← castObjectId id;
    match orders st !! oid with
    | Some _ => Some (1%N, set_orders (delete oid (orders st)) st)
    | None => Some (0%N, st)
    end
  else None.
End StoreCalls.

(** ** Routes *)

Inductive Body :=
  | Message (message : string)
  | Deleted (message : string) (deletedCount : N)
  (** [{ message, error: String(err) }]; the text of the store's error is
      not kept *)
  | Failure (message : string)
  | OrderJson (oid : N) (o : Order)
  | ProductJson (pid : N) (p : Product).

Record Response := { code : N; body : Body }.

Definition respond (c : N) (b : Body) : Response := {| code := c; body := b |}.

(** [try { ... } catch (err) { ... }]: the attempt is [None] when something
    in the block throws. *)
Definition try_catch {A} (attempt : option A) (handler : A) : A :=
  default handler attempt.

(** [list.includes(v)] for a list of string literals (SameValueZero). *)
Definition includes (l : list string) (v : value) : bool :=
  match v with
  | VStr s => bool_decide (s ∈ l)
  | _ => false
  end.

(** The elements of an array; read only behind [Array.isArray]. *)
Definition elements (v : value) : list value :=
  match v with
  | VArr l => l
  | _ => []
  end.

Definition statuses : list string := ["Pending"; "Delivered"; "Cancelled"].

(** The update documents of the two routes that update an order:
    [{ shopId, shopName, items: parsedItems, totalAmount }] and
    [{ status }]. *)
Definition replace_update (shopId shopName : value) (parsedItems : list OrderItem)
    (totalAmount : float) : OrderUpdate :=
  {| u_shopId := Some shopId; u_shopName := Some shopName;
     u_items := Some parsedItems; u_totalAmount := Some totalAmount;
     u_status := None |}.

Definition status_update (status : value) : OrderUpdate :=
  {| u_shopId := None; u_shopName := None; u_items := None;
     u_totalAmount := None; u_status := Some status |}.

(** The document [new Order({ shopId, shopName, items, totalAmount })]
    makes: [status] and [createdAt] take the defaults of the schema (lines
    55-60). *)
Definition new_order (shopId shopName : value) (parsedItems : list OrderItem)
    (totalAmount : float) (now : N) : Order :=
  {| shopId := shopId; shopName := shopName; items := parsedItems;
     totalAmount := totalAmount; status := VStr "Pending"; createdAt := now |}.

Section Routes.
Context `{JsRuntime} `{Mongoose}.

(** [app.post("/api/orders", ...)], lines 161-184 and 446-461.  [oid] is
    the [_id] the new document gets and [now] the value of [Date.now]. *)
Definition post_orders (reqBody : value) (oid now : N) (st : Store)
  : Response * Store :=
  try_catch
    (shopId ← prop reqBody "shopId";
     shopName ← prop reqBody "shopName";
     items ← prop reqBody "items";
     if negb (ToBoolean shopId) || negb (isArray items)
        || (length (elements items) =? 0)%nat
     then Some (respond 400 (Message "Shop and items are required"), st)
     else
       '(parsedItems, totalAmount) ← buildParsedItems (elements items);
       let order := new_order shopId shopName parsedItems totalAmount now in
       st' ← save_order oid order st;
       Some (respond 201 (OrderJson oid order), st'))
    (respond 500 (Message "Error creating order"), st).

(** [app.put("/api/orders/:id", ...)], lines 187-217 and 463-479. *)
Definition put_order (id : string) (reqBody : value) (st : Store)
  : Response * Store :=
  try_catch
    (shopId ← prop reqBody "shopId";
     shopName ← prop reqBody "shopName";
     items ← prop reqBody "items";
     if negb (ToBoolean shopId) || negb (isArray items)
        || (length (elements items) =? 0)%nat
     then Some (respond 400 (Message "Shop and items are required"), st)
     else
       '(parsedItems, totalAmount) ← buildParsedItems (elements items);
       '(order, st') ← findByIdAndUpdate id
          (replace_update shopId shopName parsedItems totalAmount) st;
       match order with
       | None => Some (respond 404 (Message "Order not found"), st')
       | Some (oid, o) => Some (respond 200 (OrderJson oid o), st')
       end)
    (respond 500 (Message "Error updating order"), st).

(** [app.patch("/api/orders/:id/status", ...)], lines 236-258 and
    495-508. *)
Definition patch_order_status (id : string) (reqBody : value) (st : Store)
  : Response * Store :=
  try_catch
    (status ← prop reqBody "status";
     if negb (includes statuses status)
     then Some (respond 400 (Message "Invalid status"), st)
     else
       '(order, st') ← findByIdAndUpdate id (status_update status) st;
       match order with
       | None => Some (respond 404 (Message "Order not found"), st')
       | Some (oid, o) => Some (respond 200 (OrderJson oid o), st')
       end)
    (respond 500 (Message "Error updating status"), st).
End Routes.

(** [name.trim()]: only a string has the method; on any other truthy value
    the call throws a TypeError. *)
Definition call_trim `{JsRuntime} (v : value) : option string :=
  match v with
  | VStr s => Some (trim s)
  | _ => None
  end.

(** [v != null ? Number(v) : undefined] *)
Definition number_if_given `{JsRuntime} (v : value) : option (option float) :=
  if is_nullish v then Some None else x ← ToNumber v; Some (Some x).

(** *** Routes of the earlier revision (lines 1-298) *)
Module Earlier.
Section Routes.
Context `{JsRuntime} `{Mongoose}.

(** [app.post("/api/products", ...)], lines 110-131. *)
Definition post_products (reqBody : value) (pid now : N) (st : Store)
  : Response * Store :=
  try_catch
    (name ← prop reqBody "name";
     mrp ← prop reqBody "mrp";
     price ← prop reqBody "price";
     if negb (ToBoolean name) || is_nullish mrp || is_nullish price
     then Some (respond 400 (Message "Name, MRP and price are required"), st)
     else
       n ← call_trim name;
       m ← ToNumber mrp;
       p ← ToNumber price;
       let product := {| pr_name := n; pr_mrp := m; pr_price := Some p;
                         pr_salePrice := None; pr_createdAt := now |} in
       st' ← save_product pid product st;
       Some (respond 201 (ProductJson pid product), st'))
    (respond 500 (Message "Error creating product"), st).

(** [app.delete("/api/orders/:id", ...)], lines 261-284.  A route
    parameter is a non-empty string [s], for which [String(s || "")] is
    [s]. *)
Definition delete_order (paramId : string) (st : Store) : Response * Store :=
  let id := trim paramId in
  try_catch
    ('(deletedCount, st') ← deleteOne id st;
     Some (respond 200
             (Deleted (if (0 <? deletedCount)%N then "Order deleted"
                       else "Order not found or already deleted")
                      deletedCount), st'))
    (respond 200 (Failure "Error while deleting, but request received"), st).
End Routes.
End Earlier.

(** *** Routes of the revised server (lines 299-532) *)
Module Revised.
Section Routes.
Context `{JsRuntime} `{Mongoose}.

(** [app.post("/api/products", ...)], lines 403-423. *)
Definition post_products (reqBody : value) (pid now : N) (st : Store)
  : Response * Store :=
  try_catch
    (name ← prop reqBody "name";
     mrp ← prop reqBody "mrp";
     price ← prop reqBody "price";
     salePrice ← prop reqBody "salePrice";
     if negb (ToBoolean name) || is_nullish mrp
     then Some (respond 400 (Message "Name and MRP are required"), st)
     else
       n ← call_trim name;
       m ← ToNumber mrp;
       p ← number_if_given price;
       sp ← number_if_given salePrice;
       let product := {| pr_name := n; pr_mrp := m; pr_price := p;
                         pr_salePrice := sp; pr_createdAt := now |} in
       st' ← save_product pid product st;
       Some (respond 201 (ProductJson pid product), st'))
    (respond 500 (Message "Error creating product"), st).

(** [app.delete("/api/orders/:id", ...)], lines 510-524. *)
Definition delete_order (paramId : string) (st : Store) : Response * Store :=
  let id := trim paramId in
  try_catch
    ('(deletedCount, st') ← deleteOne id st;
     if (0 <? deletedCount)%N
     then Some (respond 200 (Deleted "Order deleted" deletedCount), st')
     else Some (respond 404 (Deleted "Order not found" 0), st'))
    (respond 500 (Failure "Error while deleting"), st).
End Routes.
End Revised.

(** *** The server as a transition system

    The requests that write to the store, and the route each one reaches.
    The GET routes only read and are left out. *)
Inductive Revision := earlier | revised.

Inductive Request :=
  | PostProduct (reqBody : value) (pid now : N)
  | PostOrder (reqBody : value) (oid now : N)
  | PutOrder (id : string) (reqBody : value)
  | PatchOrderStatus (id : string) (reqBody : value)
  | DeleteOrder (id : string).

Definition handle `{JsRuntime} `{Mongoose} (rev : Revision) (req : Request)
    (st : Store) : Response * Store :=
  match req, rev with
  | PostProduct reqBody pid now, earlier => Earlier.post_products reqBody pid now st
  | PostProduct reqBody pid now, revised => Revised.post_products reqBody pid now st
  | PostOrder reqBody oid now, _ => post_orders reqBody oid now st
  | PutOrder id reqBody, _ => put_order id reqBody st
  | PatchOrderStatus id reqBody, _ => patch_order_status id reqBody st
  | DeleteOrder id, earlier => Earlier.delete_order id st
  | DeleteOrder id, revised => Revised.delete_order id st
  end.


(** The three values a status may take. *)
Definition valid_status (v : value) : Prop :=
  v = VStr "Pending" ∨ v = VStr "Delivered" ∨ v = VStr "Cancelled".

(** ** A runtime to evaluate the definitions on examples

    The theorems below hold for every [JsRuntime] and [Mongoose].  To run
    the definitions on concrete requests, this instance covers part of the
    built-ins: it reads a string of decimal digits below 2^53 as ECMAScript
    does (and the empty string as 0) and answers [NaN] on any other string;
    it prints zeros, infinities, [NaN] and the integers below 2^53 in
    magnitude as ECMAScript does and answers ["NaN"] on any other number;
    it trims the ASCII white space.  Its ObjectIds are the strings of 24
    hexadecimal digits. *)
Module Sample.
Definition digit (base : N) (c : ascii) : option N :=
  let n := N_of_ascii c in
  let d := if (48 <=? n)%N && (n <=? 57)%N then Some (n - 48)%N
           else if (97 <=? n)%N && (n <=? 102)%N then Some (n - 87)%N
           else if (65 <=? n)%N && (n <=? 70)%N then Some (n - 55)%N
           else None in
  d ≫= λ d, if (d <? base)%N then Some d else None.

Fixpoint digits (base acc : N) (s : string) : option N :=
  match s with
  | EmptyString => Some acc
  | String c rest => d ← digit base c; digits base (base * acc + d)%N rest
  end.

Definition decimal_to_number (s : string) : float :=
  match digits 10 0 s with
  | Some n => if (n <? 2 ^ 53)%N then PrimFloat.of_uint63 (Uint63.of_Z (Z.of_N n))
              else PrimFloat.nan
  | None => PrimFloat.nan
  end.

Definition hex24 (s : string) : option N :=
  if (String.length s =? 24)%nat then digits 16 0 s else None.

Definition integer_to_string (x : float) : string :=
  match Prim2SF x with
  | S754_zero _ => "0"
  | S754_infinity false => "Infinity"
  | S754_infinity true => "-Infinity"
  | S754_nan => "NaN"
  | S754_finite sign m e =>
      let n := (Z.pos m * 2 ^ e)%Z in
      if (0 <=? e)%Z && (n <? 2 ^ 53)%Z
      then (if sign then "-" else "") ++ pretty (Z.to_N n)
      else if (e <? 0)%Z && (Z.pos m mod 2 ^ (- e) =? 0)%Z
      then (if sign then "-" else "") ++ pretty (Z.to_N (Z.pos m / 2 ^ (- e)))
      else "NaN"
  end.

Definition is_space (c : ascii) : bool :=
  let n := N_of_ascii c in ((9 <=? n)%N && (n <=? 13)%N) || (n =? 32)%N.

Fixpoint trim_start (s : string) : string :=
  match s with
  | String c rest => if is_space c then trim_start rest else s
  | EmptyString => EmptyString
  end.

Definition ascii_trim (s : string) : string :=
  String.rev (trim_start (String.rev (trim_start s))).

#[export] Instance runtime : JsRuntime :=
  {| StringToNumber := decimal_to_number;
     NumberToString := integer_to_string;
     trim := ascii_trim |}.

#[export] Instance store_client : Mongoose :=
  {| castObjectId := hex24;
     validOrder := λ o, match shopId o with
                        | VStr s => bool_decide (is_Some (hex24 s))
                        | _ => false
                        end;
     validProduct := λ p, negb (String.eqb (pr_name p) "");
     castUpdate := λ u, match u_shopId u with
                        | Some (VStr s) => bool_decide (is_Some (hex24 s))
                        | Some _ => false
                        | None => true
                        end |}.

Definition empty_store : Store := {| orders := ∅; products := ∅; online := true |}.

(** A line item with an explicit quantity of 0, an order made of it, and a
    store that holds this order under the ObjectId 7. *)
Definition zero_qty_item : value := VObj [("qty", VNum 0); ("price", VStr "10")].

Definition ten_for_one : OrderItem :=
  {| productId := VNull; productName := VUndefined; mrp := 0; price := 10;
     qty := 1; lineTotal := 10; note := VStr "" |}.

Definition shop_a : string := "0123456789abcdef01234567".
Definition order_7 : string := "000000000000000000000007".

Definition delivered_order : Order :=
  {| shopId := VStr shop_a; shopName := VStr "A"; items := [ten_for_one];
     totalAmount := 10; status := VStr "Delivered"; createdAt := 1 |}.

Definition one_order_store : Store :=
  {| orders := {[ 7%N := delivered_order ]}; products := ∅; online := true |}.

Definition order_request : value :=
  VObj [("shopId", VStr shop_a); ("shopName", VStr "B");
        ("items", VArr [zero_qty_item])].

Definition soap_without_price : value :=
  VObj [("name", VStr "Soap"); ("mrp", VNum 10)].
End Sample.

(** ** Shops and the listing routes

    The shop routes (lines 70-94 and 368-389, the same code in both
    revisions) work on a third collection.  The database is the store above
    together with the shops; it is reachable when the store is. *)

Record Shop := { sh_name : string; sh_createdAt : N }.

Record Database := { store : Store; shops : gmap N Shop }.

Inductive ShopBody :=
  | ShopMessage (message : string)
  | ShopJson (sid : N) (s : Shop).

Record ShopResponse := { sh_code : N; sh_body : ShopBody }.

(** [shop.save()]: the schema requires a non-empty [name] (lines 28-31). *)
Definition save_shop (sid : N) (s : Shop) (db : Database) : option Database :=
  if online (store db) && negb (String.eqb (sh_name s) "")
     && bool_decide (shops db !! sid = None)
  then Some {| store := store db; shops := <[sid := s]> (shops db) |}
  else None.

(** [app.post("/api/shops", ...)], lines 81-94 and 378-389.  In
    [!name || !name.trim()] the call of [trim] is reached only for a truthy
    [name], and it is made again for the document. *)
Definition post_shops `{JsRuntime} (reqBody : value) (sid now : N) (db : Database)
  : ShopResponse * Database :=
  let required := ({| sh_code := 400; sh_body := ShopMessage "Shop name is required" |}, db) in
  try_catch
    (name ← prop reqBody "name";
     if negb (ToBoolean name) then Some required
     else
       trimmed ← call_trim name;
       if String.eqb trimmed "" then Some required
       else
         n ← call_trim name;
         let shop := {| sh_name := n; sh_createdAt := now |} in
         db' ← save_shop sid shop db;
         Some ({| sh_code := 201; sh_body := ShopJson sid shop |}, db'))
    ({| sh_code := 500; sh_body := ShopMessage "Error creating shop" |}, db).

(** What a listing route answers: the documents with status 200, or a
    message with status 500. *)
Inductive Listing (A : Type) :=
  | Listed (docs : list (N * A))
  | ListingFailed (message : string).
Arguments Listed {A} docs.
Arguments ListingFailed {A} message.

Definition listing_code {A} (r : Listing A) : N :=
  match r with
  | Listed _ => 200
  | ListingFailed _ => 500
  end.

(** [.sort({ name: 1 })]: strings are compared byte by byte, a proper prefix
    first.  [.sort({ createdAt: -1 })]: the newest first.  MongoDB leaves
    the order of documents with equal keys open; the sort used here keeps
    them in the order the collection yields them. *)
Definition by_shop_name (a b : N * Shop) : Prop :=
  String.leb (sh_name a.2) (sh_name b.2) = true.

Definition by_product_name (a b : N * Product) : Prop :=
  String.leb (pr_name a.2) (pr_name b.2) = true.

Definition newest_first (a b : N * Order) : Prop :=
  (createdAt b.2 ≤ createdAt a.2)%N.

#[global] Instance by_shop_name_dec : RelDecision by_shop_name.
Proof. intros a b. unfold by_shop_name. apply _. Defined.

#[global] Instance by_product_name_dec : RelDecision by_product_name.
Proof. intros a b. unfold by_product_name. apply _. Defined.

#[global] Instance newest_first_dec : RelDecision newest_first.
Proof. intros a b. unfold newest_first. apply _. Defined.

(** [app.get("/api/shops", ...)], lines 70-78 and 368-376. *)
Definition get_shops (db : Database) : Listing Shop :=
  if online (store db)
  then Listed (merge_sort by_shop_name (map_to_list (shops db)))
  else ListingFailed "Error fetching shops".

(** [app.get("/api/products", ...)], lines 99-107 and 392-400. *)
Definition get_products (st : Store) : Listing Product :=
  if online st
  then Listed (merge_sort by_product_name (map_to_list (products st)))
  else ListingFailed "Error fetching products".

(** [if (p) filter.k = p] for a query parameter that is absent or given
    once as a string: an empty string is falsy and sets no condition. *)
Definition param_given (p : option string) : option string :=
  match p with
  | Some s => if String.eqb s "" then None else Some s
  | None => None
  end.

(** Whether a stored order satisfies the filter.  The shop of the filter
    is an ObjectId, and so is the shop reference of a stored order, which
    is the cast of the string it was handed over as. *)
Definition matches `{Mongoose} (shop : option N) (st : option string)
    (doc : N * Order) : bool :=
  match shop with
  | Some oid =>
      match shopId doc.2 with
      | VStr s => bool_decide (castObjectId s = Some oid)
      | _ => false
      end
  | None => true
  end
  &&
  match st with
  | Some wanted =>
      match status doc.2 with
      | VStr s => String.eqb s wanted
      | _ => false
      end
  | None => true
  end.

(** [app.get("/api/orders", ...)], lines 220-233 and 481-493, for query
    parameters that are absent or given once as strings.  The find rejects
    when the store cannot be reached or the [shopId] of the filter does not
    cast to an ObjectId. *)
Definition get_orders `{Mongoose} (q_shopId q_status : option string) (st : Store)
  : Listing Order :=
  let f_shopId := param_given q_shopId in
  let f_status := param_given q_status in
  let failed := ListingFailed "Error fetching orders" in
  if online st then
    match f_shopId with
    | Some s =>
        match castObjectId s with
        | Some oid =>
            Listed (merge_sort newest_first
                      (filter (λ doc, matches (Some oid) f_status doc = true)
                              (map_to_list (orders st))))
        | None => failed
        end
    | None =>
        Listed (merge_sort newest_first
                  (filter (λ doc, matches None f_status doc = true)
                          (map_to_list (orders st))))
    end
  else failed.

(** ** Predicates used in the statements below *)

(** The values a JSON scalar or a missing field gives. *)
Definition scalar (v : value) : bool :=
  match v with
  | VArr _ | VObj _ => false
  | _ => true
  end.

(** A line item as a client is expected to send it: an object (anything
    but [null] and [undefined] can be read) whose [qty], [price] and [mrp]
    are scalars or missing. *)
Definition flat_item (item : value) : Prop :=
  is_nullish item = false ∧
  ∀ k, k ∈ ["qty"; "price"; "mrp"] →
       scalar (default VUndefined (prop item k)) = true.

(** What the data model asks of a stored order: at least one line item,
    each line total the product of price and quantity, and the total
    amount the sum of the line totals. *)
Definition order_consistent (o : Order) : Prop :=
  items o ≠ [] ∧
  Forall (λ r, lineTotal r = PrimFloat.mul (price r) (qty r)) (items o) ∧
  totalAmount o = totalOf (items o).

(** Store-wide forms of the two conditions on orders. *)
Definition statuses_valid (st : Store) : Prop :=
  ∀ oid o, orders st !! oid = Some o → valid_status (status o).

Definition store_consistent (st : Store) : Prop :=
  ∀ oid o, orders st !! oid = Some o → order_consistent o.

Definition is_full_replace (req : Request) : bool :=
  match req with
  | PutOrder _ _ => true
  | _ => false
  end.

Definition is_product_creation (req : Request) : bool :=
  match req with
  | PostProduct _ _ _ => true
  | _ => false
  end.

(** The status codes with which a route reports an error. *)
Definition error_code (c : N) : Prop := c = 400%N ∨ c = 404%N ∨ c = 500%N.

(** More values to run the further properties on. *)
Module Fixtures.
Definition free_item : OrderItem :=
  {| productId := VNull; productName := VUndefined; mrp := 0; price := 0;
     qty := 1; lineTotal := 0; note := VStr "" |}.

Definition order_8 : string := "000000000000000000000008".

Definition pending_order : Order :=
  {| shopId := VStr Sample.shop_a; shopName := VStr "A";
     items := [Sample.ten_for_one]; totalAmount := 10;
     status := VStr "Pending"; createdAt := 1 |}.

Definition soap : value :=
  VObj [("name", VStr " Soap "); ("mrp", VNum 10); ("price", VNum 8)].

Definition numbered_product : value :=
  VObj [("name", VNum 5); ("mrp", VNum 10); ("price", VNum 8)].

Definition corner_shop : value := VObj [("name", VStr " Corner ")].

Definition no_shops : Database := {| store := Sample.empty_store; shops := ∅ |}.
End Fixtures.

(** ** The normalizer *)

Section NormalizerFacts.
Context `{JsRuntime}.

(** Reading one property succeeds exactly when reading any other does:
    only [null] and [undefined] refuse. *)
Lemma prop_is_Some (item : value) (k k' : string) :
  is_Some (prop item k) → is_Some (prop item k').
Proof. destruct item; simpl; intros [? ?]; by eauto. Qed.

Lemma truthy_num_or (x d : float) : truthy_num x = true → num_or x d = x.
Proof. unfold num_or. by intros ->. Qed.

Lemma falsy_num_or (x d : float) : truthy_num x = false → num_or x d = d.
Proof. unfold num_or. by intros ->. Qed.

Lemma truthy_num_spec (x : float) :
  truthy_num x = true ↔ PrimFloat.is_nan x = false ∧ PrimFloat.is_zero x = false.
Proof.
  unfold truthy_num. rewrite negb_true_iff, orb_false_iff. done.
Qed.

(** The callback returns exactly when the three numeric conversions do,
    and then the item it returns is this one. *)
Lemma parseItem_returns (item : value) (q p m : float) :
  prop item "qty" ≫= ToNumber = Some q →
  prop item "price" ≫= ToNumber = Some p →
  prop item "mrp" ≫= ToNumber = Some m →
  ∃ pid pname n,
    prop item "productId" = Some pid ∧ prop item "productName" = Some pname ∧
    prop item "note" = Some n ∧
    parseItem item =
      Some {| productId := js_or pid VNull;
              productName := pname;
              mrp := num_or m PrimFloat.zero;
              price := num_or p PrimFloat.zero;
              qty := num_or q PrimFloat.one;
              lineTotal := PrimFloat.mul (num_or p PrimFloat.zero) (num_or q PrimFloat.one);
              note := js_or n (VStr "") |}.
Proof.
  intros Hq Hp Hm.
  assert (is_Some (prop item "qty")) as Hr.
  { destruct (prop item "qty"); [by eauto | done]. }
  destruct (prop_is_Some item "qty" "productId" Hr) as [pid Hpid].
  destruct (prop_is_Some item "qty" "productName" Hr) as [pname Hpname].
  destruct (prop_is_Some item "qty" "note" Hr) as [n Hn].
  exists pid, pname, n. repeat split; try done.
  unfold parseItem. rewrite Hq, Hp, Hm, Hpid, Hpname, Hn. done.
Qed.

Lemma parseItem_inv (item : value) (r : OrderItem) :
  parseItem item = Some r →
  ∃ q p m,
    prop item "qty" ≫= ToNumber = Some q ∧
    prop item "price" ≫= ToNumber = Some p ∧
    prop item "mrp" ≫= ToNumber = Some m ∧
    qty r = num_or q PrimFloat.one ∧
    price r = num_or p PrimFloat.zero ∧
    mrp r = num_or m PrimFloat.zero ∧
    lineTotal r = PrimFloat.mul (price r) (qty r) ∧
    (∃ pid, productId r = js_or pid VNull) ∧
    (∃ n, note r = js_or n (VStr "")).
Proof.
  unfold parseItem. intros Hr.
  destruct (prop item "qty" ≫= ToNumber) as [q|]; [|done].
  destruct (prop item "price" ≫= ToNumber) as [p|]; [|done].
  simpl in Hr.
  destruct (prop item "productId") as [pid|]; [|done].
  destruct (prop item "productName") as [pname|]; [|done].
  destruct (prop item "mrp" ≫= ToNumber) as [m|]; [|done].
  destruct (prop item "note") as [n|]; [|done].
  simpl in Hr. injection Hr as <-. exists q, p, m. simpl.
  repeat split; [by exists pid | by exists n].
Qed.
End NormalizerFacts.

Section NormalizerClaims.
Context `{JsRuntime}.

(** C2.  For every raw line item on which the three numeric conversions
    return ([q] being [Number(item.qty)]), the normalizer returns an item
    whose quantity is 1 when [q] is [NaN] (the parse failed), 1 when [q] is
    zero (so an explicit quantity of 0 becomes 1), and [q] itself
    otherwise. *)
Theorem qty_defaulting (item : value) (q p m : float) :
  prop item "qty" ≫= ToNumber = Some q →
  prop item "price" ≫= ToNumber = Some p →
  prop item "mrp" ≫= ToNumber = Some m →
  ∃ r, parseItem item = Some r ∧
       (PrimFloat.is_nan q = true → qty r = PrimFloat.one) ∧
       (PrimFloat.is_zero q = true → qty r = PrimFloat.one) ∧
       (PrimFloat.is_nan q = false → PrimFloat.is_zero q = false → qty r = q).
Proof.
  intros Hq Hp Hm.
  destruct (parseItem_returns item q p m Hq Hp Hm) as (pid & pname & n & _ & _ & _ & ->).
  eexists; split; [done|]. simpl. unfold num_or, truthy_num.
  repeat split.
  - by intros ->.
  - intros ->. by rewrite orb_true_r.
  - by intros -> ->.
Qed.

(** C3.  Under the same condition, the unit price is 0 when
    [Number(item.price)] is [NaN] and is that number otherwise, and
    likewise the list price for [Number(item.mrp)].  "Is that number" is
    numeric equality ([===]); the two are the same float unless the parsed
    value is a zero, whose sign is not kept. *)
Theorem price_mrp_defaulting (item : value) (q p m : float) :
  prop item "qty" ≫= ToNumber = Some q →
  prop item "price" ≫= ToNumber = Some p →
  prop item "mrp" ≫= ToNumber = Some m →
  ∃ r, parseItem item = Some r ∧
       (PrimFloat.is_nan p = true → price r = PrimFloat.zero) ∧
       (PrimFloat.is_nan p = false → PrimFloat.eqb p (price r) = true) ∧
       (truthy_num p = true → price r = p) ∧
       (PrimFloat.is_nan m = true → mrp r = PrimFloat.zero) ∧
       (PrimFloat.is_nan m = false → PrimFloat.eqb m (mrp r) = true) ∧
       (truthy_num m = true → mrp r = m).
Proof.
  intros Hq Hp Hm.
  destruct (parseItem_returns item q p m Hq Hp Hm) as (pid & pname & n & _ & _ & _ & ->).
  eexists; split; [done|]. simpl.
  assert (∀ x, (PrimFloat.is_nan x = true → num_or x PrimFloat.zero = PrimFloat.zero) ∧
               (PrimFloat.is_nan x = false → PrimFloat.eqb x (num_or x PrimFloat.zero) = true) ∧
               (truthy_num x = true → num_or x PrimFloat.zero = x)) as Hnum.
  { intros x. unfold num_or, truthy_num, PrimFloat.is_nan, PrimFloat.is_zero.
    destruct (PrimFloat.eqb x x) eqn:Hx; destruct (PrimFloat.eqb x PrimFloat.zero) eqn:Hz;
      simpl; repeat split; intros; rewrite ?Hx, ?Hz; done. }
  destruct (Hnum p) as (? & ? & ?). destruct (Hnum m) as (? & ? & ?). done.
Qed.

(** C4.  Every item the normalizer returns has [lineTotal] equal to the
    binary64 product of its (defaulted) unit price and quantity; nothing is
    rounded to a currency precision afterwards. *)
Theorem lineTotal_is_product (items : list value) (parsedItems : list OrderItem)
    (total : float) :
  buildParsedItems items = Some (parsedItems, total) →
  Forall (λ r, lineTotal r = PrimFloat.mul (price r) (qty r)) parsedItems.
Proof.
  unfold buildParsedItems. intros Hb.
  destruct (mapM parseItem items) as [l|] eqn:Hm; [|done].
  simpl in Hb. injection Hb as <- _.
  apply mapM_Some in Hm. induction Hm as [|item r ? ? Hr _ IH]; constructor; [|done].
  by destruct (parseItem_inv _ _ Hr) as (? & ? & ? & _ & _ & _ & _ & _ & _ & ? & _).
Qed.
End NormalizerClaims.

(** ** The aggregator *)

Lemma totalOf_sum_lineTotals (l : list OrderItem) : totalOf l = sum_lineTotals l.
Proof.
  unfold totalOf, sum_lineTotals, num_or, contribution.
  rewrite <- fold_left_rev_right. done.
Qed.

Lemma sum_lineTotals_nil : sum_lineTotals [] = PrimFloat.zero.
Proof. done. Qed.

(** Each item is added once, after the items before it. *)
Lemma sum_lineTotals_snoc (l : list OrderItem) (it : OrderItem) :
  sum_lineTotals (l ++ [it]) = PrimFloat.add (sum_lineTotals l) (contribution it).
Proof. unfold sum_lineTotals. by rewrite rev_unit. Qed.

(** Items whose [lineTotal] is falsy ([NaN] or a zero) add nothing. *)
Lemma sum_lineTotals_all_falsy (l : list OrderItem) :
  Forall (λ it, truthy_num (lineTotal it) = false) l →
  sum_lineTotals l = PrimFloat.zero.
Proof.
  induction l as [|it l IH] using rev_ind; [done|].
  rewrite Forall_app, Forall_singleton. intros [Hl Hit].
  rewrite sum_lineTotals_snoc, (IH Hl). unfold contribution. by rewrite Hit.
Qed.

(** Binary64 addition of a number that is neither a zero nor [NaN] to 0
    gives that number. *)
Lemma zero_add_truthy (x : float) :
  truthy_num x = true → PrimFloat.add PrimFloat.zero x = x.
Proof.
  intros [_ Hz]%truthy_num_spec. unfold PrimFloat.is_zero in Hz.
  rewrite FloatAxioms.eqb_spec in Hz. apply Prim2SF_inj. rewrite add_spec.
  change (Prim2SF PrimFloat.zero) with (S754_zero false) in *.
  destruct (Prim2SF x) as [[]| | |]; done.
Qed.

Lemma sum_lineTotals_single (it : OrderItem) :
  truthy_num (lineTotal it) = true → sum_lineTotals [it] = lineTotal it.
Proof.
  intros Ht. change (sum_lineTotals [it]) with (PrimFloat.add PrimFloat.zero (contribution it)).
  unfold contribution. rewrite Ht. by apply zero_add_truthy.
Qed.

Section AggregatorClaims.
Context `{JsRuntime}.

Lemma buildParsedItems_inv (l : list value) (parsedItems : list OrderItem) (total : float) :
  buildParsedItems l = Some (parsedItems, total) →
  mapM parseItem l = Some parsedItems ∧ total = totalOf parsedItems.
Proof.
  unfold buildParsedItems. destruct (mapM parseItem l); [|done].
  simpl. by intros [= <- <-].
Qed.

(** C5.  The [totalAmount] the helper returns is the sum of the
    [lineTotal] of every normalized item, a falsy [lineTotal] counting as
    0: the sum of no item is 0 and each item, in sequence order, is added
    once to the sum of the items before it.  There is one normalized item
    per input, and the empty sequence gives 0. *)
Theorem totalAmount_is_sum (l : list value) (parsedItems : list OrderItem)
    (total : float) :
  buildParsedItems l = Some (parsedItems, total) →
  total = sum_lineTotals parsedItems ∧
  length parsedItems = length l ∧
  (l = [] → total = PrimFloat.zero) ∧
  sum_lineTotals [] = PrimFloat.zero ∧
  (∀ before it, sum_lineTotals (before ++ [it])
                = PrimFloat.add (sum_lineTotals before)
                    (if truthy_num (lineTotal it) then lineTotal it
                     else PrimFloat.zero)).
Proof.
  intros [Hm ->]%buildParsedItems_inv. split; [apply totalOf_sum_lineTotals|].
  split; [symmetry; by eapply length_mapM|].
  split; [|split; [done | apply sum_lineTotals_snoc]].
  intros ->. simpl in Hm. by injection Hm as <-.
Qed.

Lemma num_or_idem (x d : float) :
  num_or d d = d → num_or (num_or x d) d = num_or x d.
Proof.
  intros Hd. destruct (truthy_num x) eqn:Hx.
  - rewrite (truthy_num_or x d Hx). by apply truthy_num_or.
  - by rewrite (falsy_num_or x d Hx).
Qed.

Lemma js_or_idem (a b : value) : js_or (js_or a b) b = js_or a b.
Proof.
  unfold js_or. destruct (ToBoolean a) eqn:Ha.
  - by rewrite Ha.
  - by destruct (ToBoolean b).
Qed.

(** A normalized item, read back as an object, normalizes to itself. *)
Lemma parseItem_fixed (item : value) (r : OrderItem) :
  parseItem item = Some r → parseItem (item_to_value r) = Some r.
Proof.
  intros (q & p & m & _ & _ & _ & Hq & Hp & Hm & Hl & [pid Hpid] & [n Hn])%parseItem_inv.
  destruct r as [rpid rname rmrp rprice rqty rtotal rnote]. simpl in *. subst.
  unfold parseItem, item_to_value. simpl.
  rewrite !js_or_idem, !num_or_idem; done.
Qed.

(** C10.  Handing the normalized items back to the helper gives the same
    list of items and the same [totalAmount]. *)
Theorem normalization_idempotent (l : list value) (parsedItems : list OrderItem)
    (total : float) :
  buildParsedItems l = Some (parsedItems, total) →
  buildParsedItems (item_to_value <$> parsedItems) = Some (parsedItems, total).
Proof.
  intros [Hm ->]%buildParsedItems_inv.
  assert (mapM parseItem (item_to_value <$> parsedItems) = Some parsedItems) as Hm'.
  { apply mapM_Some in Hm. apply mapM_Some.
    induction Hm as [|item r ? ? Hr _ IH]; simpl; constructor; [|done].
    by eapply parseItem_fixed. }
  unfold buildParsedItems. by rewrite Hm'.
Qed.
End AggregatorClaims.

(** ** The routes *)

Lemma includes_statuses (v : value) : includes statuses v = true ↔ valid_status v.
Proof.
  unfold valid_status. destruct v; simpl;
    try (split; [done | by intros [?|[?|?]]]).
  rewrite bool_decide_eq_true. unfold statuses.
  rewrite !elem_of_cons, elem_of_nil. split.
  - intros [-> | [-> | [-> | []]]]; by eauto.
  - intros [Hv|[Hv|Hv]]; injection Hv as ->; by eauto.
Qed.

Lemma valid_status_defined (v : value) (old : value) :
  valid_status v → set_path (Some v) old = v.
Proof. by intros [-> | [-> | ->]]. Qed.

Lemma truthy_defined (v : value) (old : value) :
  ToBoolean v = true → set_path (Some v) old = v.
Proof. by destruct v. Qed.

Section RouteFacts.
Context `{JsRuntime} `{Mongoose}.

(** What the update call does to the collection. *)
Lemma findByIdAndUpdate_found (id : string) (u : OrderUpdate) (st : Store)
    (oid : N) (o : Order) :
  online st = true → castUpdate u = true →
  castObjectId id = Some oid → orders st !! oid = Some o →
  findByIdAndUpdate id u st =
    Some (Some (oid, apply_update u o),
          set_orders (<[oid := apply_update u o]> (orders st)) st).
Proof.
  intros Hon Hu Hid Ho. unfold findByIdAndUpdate.
  rewrite Hon, Hu, Hid. simpl. by rewrite Ho.
Qed.

Lemma findByIdAndUpdate_inv (id : string) (u : OrderUpdate) (st st' : Store)
    (found : option (N * Order)) :
  findByIdAndUpdate id u st = Some (found, st') →
  (found = None ∧ st' = st) ∨
  (∃ oid o, orders st !! oid = Some o ∧ found = Some (oid, apply_update u o) ∧
            st' = set_orders (<[oid := apply_update u o]> (orders st)) st).
Proof.
  unfold findByIdAndUpdate.
  destruct (online st && castUpdate u); [|done].
  destruct (castObjectId id) as [oid|]; [|done]. simpl.
  destruct (orders st !! oid) as [o|] eqn:Ho; intros [= <- <-]; [right|left]; by eauto.
Qed.

Lemma deleteOne_inv (id : string) (st st' : Store) (n : N) :
  deleteOne id st = Some (n, st') →
  (n = 0%N ∧ st' = st) ∨
  (∃ oid, is_Some (orders st !! oid) ∧ n = 1%N ∧
          st' = set_orders (delete oid (orders st)) st).
Proof.
  unfold deleteOne. destruct (online st); [|done].
  destruct (castObjectId id) as [oid|]; [|done]. simpl.
  destruct (orders st !! oid) as [o|] eqn:Ho; intros [= <- <-]; [right|left]; by eauto.
Qed.

(** C1.  When the request names a status, the status-change route answers
    400 and leaves the store as it was if the value is none of [Pending],
    [Delivered], [Cancelled]; if it is one of them and the order exists
    (the store being reachable and accepting the update), the route answers
    200 and the stored order carries the requested status, whatever its
    status was before, its other fields unchanged: reading the identifier
    in the store after the request gives that order, and every other
    identifier reads as before. *)
Theorem status_change_validated (id : string) (reqBody status : value) (st : Store) :
  prop reqBody "status" = Some status →
  (¬ valid_status status →
     patch_order_status id reqBody st
     = (respond 400 (Message "Invalid status"), st)) ∧
  (valid_status status →
     ∀ (oid : N) (o : Order),
       online st = true → castUpdate (status_update status) = true →
       castObjectId id = Some oid → orders st !! oid = Some o →
       let o' := {| shopId := shopId o; shopName := shopName o; items := items o;
                    totalAmount := totalAmount o; status := status;
                    createdAt := createdAt o |} in
       patch_order_status id reqBody st
       = (respond 200 (OrderJson oid o'),
          set_orders (<[oid := o']> (orders st)) st) ∧
       orders (patch_order_status id reqBody st).2 !! oid = Some o' ∧
       ∀ oid0, oid0 ≠ oid →
         orders (patch_order_status id reqBody st).2 !! oid0 = orders st !! oid0).
Proof.
  intros Hs. unfold patch_order_status. rewrite Hs. simpl. split.
  - intros Hv. destruct (includes statuses status) eqn:Hi; [|done].
    by apply includes_statuses in Hi.
  - intros Hv oid o Hon Hu Hid Ho.
    rewrite (proj2 (includes_statuses status) Hv). simpl.
    rewrite (findByIdAndUpdate_found _ _ _ _ _ Hon Hu Hid Ho). simpl.
    assert (apply_update (status_update status) o
            = {| shopId := shopId o; shopName := shopName o; items := items o;
                 totalAmount := totalAmount o; status := status;
                 createdAt := createdAt o |}) as ->
      by by destruct Hv as [-> | [-> | ->]].
    split; [done|]. split.
    + by rewrite lookup_insert_eq.
    + intros oid0 Hne. by rewrite lookup_insert_ne.
Qed.
End RouteFacts.

Section RouteClaims.
Context `{JsRuntime} `{Mongoose}.

Lemma save_order_inv (oid : N) (o : Order) (st st' : Store) :
  save_order oid o st = Some st' →
  orders st !! oid = None ∧ st' = set_orders (<[oid := o]> (orders st)) st.
Proof.
  unfold save_order. destruct (online st); [|done].
  destruct (validOrder o); [|done]. simpl.
  case_bool_decide; [|done]. by intros [= <-].
Qed.

Lemma save_product_orders (pid : N) (p : Product) (st st' : Store) :
  save_product pid p st = Some st' → orders st' = orders st.
Proof.
  unfold save_product.
  destruct (online st && validProduct p && bool_decide (products st !! pid = None));
    [|done].
  by intros [= <-].
Qed.

(** The orders a route other than the status change leaves in the store
    are orders that were there, with the status they had. *)
Lemma post_orders_frame (reqBody : value) (oid now : N) (st : Store)
    (oid0 : N) (o0 : Order) :
  orders st !! oid0 = Some o0 →
  orders (post_orders reqBody oid now st).2 !! oid0 = Some o0.
Proof.
  intros Ho. unfold post_orders, try_catch.
  destruct (prop reqBody "shopId") as [shopId|]; [|done].
  destruct (prop reqBody "shopName") as [shopName|]; [|done].
  destruct (prop reqBody "items") as [its|]; [|done]. simpl.
  destruct (_ || _); [done|].
  destruct (buildParsedItems (elements its)) as [[parsed total]|]; [|done]. simpl.
  destruct (save_order _ _ st) as [st'|] eqn:Hs; [|done]. simpl.
  apply save_order_inv in Hs as [Hfresh ->]. simpl.
  rewrite lookup_insert_ne; [done|]. intros ->. by rewrite Ho in Hfresh.
Qed.

Lemma put_order_frame (id : string) (reqBody : value) (st : Store)
    (oid0 : N) :
  status <$> orders (put_order id reqBody st).2 !! oid0
  = status <$> orders st !! oid0.
Proof.
  unfold put_order, try_catch.
  destruct (prop reqBody "shopId") as [shopId|]; [|done].
  destruct (prop reqBody "shopName") as [shopName|]; [|done].
  destruct (prop reqBody "items") as [its|]; [|done]. simpl.
  destruct (_ || _); [done|].
  destruct (buildParsedItems (elements its)) as [[parsed total]|]; [|done]. simpl.
  destruct (findByIdAndUpdate _ _ st) as [[found st']|] eqn:Hf; [|done]. simpl.
  apply findByIdAndUpdate_inv in Hf as [[-> ->]|(oid & o & Ho & -> & ->)]; [done|].
  simpl. destruct (decide (oid = oid0)) as [->|Hne].
  - by rewrite lookup_insert_eq, Ho.
  - by rewrite lookup_insert_ne.
Qed.

Lemma delete_order_frame (rev : Revision) (id : string) (st : Store)
    (oid0 : N) (o0 : Order) :
  orders (handle rev (DeleteOrder id) st).2 !! oid0 = Some o0 →
  orders st !! oid0 = Some o0.
Proof.
  destruct rev; simpl; unfold Earlier.delete_order, Revised.delete_order, try_catch;
    (destruct (deleteOne _ st) as [[n st']|] eqn:Hd; [|done]);
    (apply deleteOne_inv in Hd as [[-> ->]|(oid & _ & -> & ->)]; [done|]);
    simpl; rewrite lookup_delete_Some; by intros [_ ?].
Qed.

Lemma post_products_frame (rev : Revision) (reqBody : value) (pid now : N)
    (st : Store) :
  orders (handle rev (PostProduct reqBody pid now) st).2 = orders st.
Proof.
  destruct rev; simpl; unfold Earlier.post_products, Revised.post_products, try_catch;
    repeat (match goal with
            | |- context [prop ?b ?k] => destruct (prop b k); simpl; [|done]
            | |- context [call_trim ?v] => destruct (call_trim v); simpl; [|done]
            | |- context [ToNumber ?v] => destruct (ToNumber v); simpl; [|done]
            | |- context [number_if_given ?v] => destruct (number_if_given v); simpl; [|done]
            | |- context [if ?b || ?c then _ else _] => destruct (b || c); simpl; [done|]
            end);
    (destruct (save_product _ _ st) as [st'|] eqn:Hs; [|done]);
    by apply save_product_orders in Hs.
Qed.

End RouteClaims.

Section OrderClaims.
Context `{JsRuntime} `{Mongoose}.

Lemma gate_passes (shopId its : value) :
  ToBoolean shopId = true → isArray its = true → elements its ≠ [] →
  negb (ToBoolean shopId) || negb (isArray its) || (length (elements its) =? 0)%nat
  = false.
Proof.
  intros -> -> Hne. simpl. by destruct (elements its).
Qed.

Lemma gate_fails (shopId its : value) :
  ToBoolean shopId = false ∨ isArray its = false ∨ its = VArr [] →
  negb (ToBoolean shopId) || negb (isArray its) || (length (elements its) =? 0)%nat
  = true.
Proof.
  intros [-> | [-> | ->]]; simpl; [done | | ]; by rewrite ?orb_true_r.
Qed.

Lemma apply_replace_update (sid sname : value) (parsedItems : list OrderItem)
    (total : float) (o : Order) :
  ToBoolean sid = true →
  apply_update (replace_update sid sname parsedItems total) o
  = {| shopId := sid;
       shopName := set_path (Some sname) (shopName o);
       items := parsedItems; totalAmount := total;
       status := status o; createdAt := createdAt o |}.
Proof.
  intros Hshop. unfold apply_update, replace_update.
  cbn [u_shopId u_shopName u_items u_totalAmount u_status default].
  by rewrite (truthy_defined _ _ Hshop).
Qed.


(** C9.  When the body of an order-creation request can be read: if
    [shopId] is missing (falsy), or [items] is not a list or is the empty
    list, the route answers 400 and the store is as it was; otherwise the
    normalizer and the aggregator run and, when they return and the store
    accepts the document, the route answers 201 and the store holds the new
    order, with status [Pending], the normalized items and their total:
    reading the new identifier in the store after the request gives that
    order, and every other identifier reads as before.  The answer is 400
    in no other case, and the store changes only when the answer is 201. *)
Theorem order_creation_gate (reqBody sid sname its : value) (oid now : N)
    (st : Store) :
  prop reqBody "shopId" = Some sid →
  prop reqBody "shopName" = Some sname →
  prop reqBody "items" = Some its →
  (ToBoolean sid = false ∨ isArray its = false ∨ its = VArr [] →
     post_orders reqBody oid now st
     = (respond 400 (Message "Shop and items are required"), st)) ∧
  (ToBoolean sid = true → isArray its = true → elements its ≠ [] →
     ∀ (parsedItems : list OrderItem) (total : float),
       buildParsedItems (elements its) = Some (parsedItems, total) →
       let order := {| shopId := sid; shopName := sname;
                       items := parsedItems; totalAmount := total;
                       status := VStr "Pending"; createdAt := now |} in
       online st = true → validOrder order = true → orders st !! oid = None →
       post_orders reqBody oid now st
       = (respond 201 (OrderJson oid order),
          set_orders (<[oid := order]> (orders st)) st) ∧
       orders (post_orders reqBody oid now st).2 !! oid = Some order ∧
       ∀ oid0, oid0 ≠ oid →
         orders (post_orders reqBody oid now st).2 !! oid0 = orders st !! oid0) ∧
  (code (post_orders reqBody oid now st).1 = 400%N →
     ToBoolean sid = false ∨ isArray its = false ∨ its = VArr []) ∧
  (code (post_orders reqBody oid now st).1 ≠ 201%N →
     (post_orders reqBody oid now st).2 = st).
Proof.
  intros Hid Hname Hits. unfold post_orders. rewrite Hid, Hname, Hits. simpl.
  split; [|split; [|split]].
  - intros Hg. by rewrite (gate_fails _ _ Hg).
  - intros Hshop Harr Hne parsedItems total Hb Hon Hv Hfresh.
    rewrite (gate_passes _ _ Hshop Harr Hne), Hb. simpl.
    unfold save_order, new_order. rewrite Hon, Hv. simpl.
    rewrite bool_decide_eq_true_2 by done. simpl.
    split; [done|]. split.
    + by rewrite lookup_insert_eq.
    + intros oid0 Hother. by rewrite lookup_insert_ne.
  - destruct (ToBoolean sid); [|by left].
    destruct its as [| | | | |l|]; try (by right; left).
    destruct l as [|item l]; [by right; right|]. simpl.
    destruct (buildParsedItems (item :: l)) as [[parsedItems total]|]; [|done].
    simpl. by destruct (save_order _ _ st).
  - destruct (_ || _); [done|].
    destruct (buildParsedItems (elements its)) as [[parsedItems total]|]; [|done].
    simpl. by destruct (save_order _ _ st).
Qed.

(** C7, as the two revisions have it.  When the store is reachable and the
    identifier casts to an ObjectId: if no order has it, the revised route
    answers 404 and the earlier one 200, both reporting [deletedCount] 0
    and leaving the store as it was; if an order has it, both answer 200,
    report the order deleted and the store no longer holds it. *)
Theorem delete_order_outcomes (paramId : string) (st : Store) (oid : N) :
  online st = true → castObjectId (trim paramId) = Some oid →
  (orders st !! oid = None →
     Revised.delete_order paramId st
     = (respond 404 (Deleted "Order not found" 0), st) ∧
     Earlier.delete_order paramId st
     = (respond 200 (Deleted "Order not found or already deleted" 0), st)) ∧
  (is_Some (orders st !! oid) →
     Revised.delete_order paramId st
     = (respond 200 (Deleted "Order deleted" 1),
        set_orders (delete oid (orders st)) st) ∧
     Earlier.delete_order paramId st
     = (respond 200 (Deleted "Order deleted" 1),
        set_orders (delete oid (orders st)) st) ∧
     orders (set_orders (delete oid (orders st)) st) !! oid = None).
Proof.
  intros Hon Hc.
  unfold Revised.delete_order, Earlier.delete_order, deleteOne.
  rewrite Hon, Hc. simpl. split.
  - by intros ->.
  - intros [o ->]. simpl. by rewrite lookup_delete_eq.
Qed.

(** C8, as the two revisions have it.  When the body of a product-creation
    request can be read, the revised route answers 400 exactly when [name]
    is missing (falsy) or [mrp] is missing ([null] or [undefined]), whatever
    [price] and [salePrice] are; the earlier route answers 400 exactly when
    [name], [mrp] or [price] is missing.  Neither changes the store when it
    answers 400. *)
Theorem product_rejection (reqBody name mrp price : value) (pid now : N)
    (st : Store) :
  prop reqBody "name" = Some name →
  prop reqBody "mrp" = Some mrp →
  prop reqBody "price" = Some price →
  (code (Revised.post_products reqBody pid now st).1 = 400%N
   ↔ ToBoolean name = false ∨ is_nullish mrp = true) ∧
  (code (Earlier.post_products reqBody pid now st).1 = 400%N
   ↔ ToBoolean name = false ∨ is_nullish mrp = true ∨ is_nullish price = true) ∧
  (code (Revised.post_products reqBody pid now st).1 = 400%N →
     (Revised.post_products reqBody pid now st).2 = st) ∧
  (code (Earlier.post_products reqBody pid now st).1 = 400%N →
     (Earlier.post_products reqBody pid now st).2 = st).
Proof.
  intros Hname Hmrp Hprice.
  destruct (prop_is_Some reqBody "name" "salePrice") as [salePrice Hsale]; [by eauto|].
  unfold Revised.post_products, Earlier.post_products, try_catch.
  rewrite Hname, Hmrp, Hprice, Hsale. simpl.
  destruct (ToBoolean name), (is_nullish mrp), (is_nullish price); simpl.
  all: unfold mbind, option_bind, default.
  all: repeat case_match; simplify_eq; simpl.
  all: repeat split; try done; try tauto.
  all: try (intros [?|?]; done).
  all: try (intros [?|[?|?]]; done).
Qed.
End OrderClaims.

(** ** Further properties of the normalizer and the aggregator *)

Section NormalizerMore.
Context `{JsRuntime}.

Lemma ToNumber_scalar (v : value) : scalar v = true → is_Some (ToNumber v).
Proof. destruct v as [| |[]| | | |]; simpl; by eauto. Qed.

Lemma parseItem_flat (item : value) : flat_item item → is_Some (parseItem item).
Proof.
  intros [Hn Hs].
  assert (∀ k, k ∈ ["qty"; "price"; "mrp"] → is_Some (prop item k ≫= ToNumber)) as Hk.
  { intros k Hk. specialize (Hs k Hk).
    destruct item; try done; simpl in *; by apply ToNumber_scalar. }
  destruct (Hk "qty") as [q Hq]; [set_solver|].
  destruct (Hk "price") as [p Hp]; [set_solver|].
  destruct (Hk "mrp") as [m Hm]; [set_solver|].
  destruct (parseItem_returns item q p m Hq Hp Hm) as (? & ? & ? & _ & _ & _ & ->).
  by eauto.
Qed.

(** X1.  The helper returns, with one normalized item per input, on every
    list of items that are objects whose [qty], [price] and [mrp] are
    scalars or missing: no such request makes it throw. *)
Theorem normalizer_returns_on_flat_items (l : list value) :
  Forall flat_item l →
  ∃ parsedItems total,
    buildParsedItems l = Some (parsedItems, total) ∧
    length parsedItems = length l.
Proof.
  intros Hl.
  destruct (mapM_is_Some_2 parseItem l) as [parsedItems Hm].
  { eapply Forall_impl; [exact Hl|]. intros item. apply parseItem_flat. }
  exists parsedItems, (totalOf parsedItems). split.
  - unfold buildParsedItems. by rewrite Hm.
  - symmetry. by eapply length_mapM.
Qed.

(** X2.  One [null] (or [undefined]) item anywhere in the list makes the
    helper throw: nothing is normalized. *)
Theorem normalizer_throws_on_null_item (l : list value) :
  Exists (λ item, is_nullish item = true) l →
  buildParsedItems l = None.
Proof.
  intros Hex. unfold buildParsedItems.
  assert (mapM parseItem l = None) as ->; [|done].
  apply mapM_None. eapply Exists_impl; [exact Hex|].
  intros item Hn. by destruct item.
Qed.

(** X3.  The normalized items come in the order of the inputs: the item
    at each position is the normalization of the input at that position. *)
Theorem normalizer_keeps_positions (l : list value) (parsedItems : list OrderItem)
    (total : float) (i : nat) :
  buildParsedItems l = Some (parsedItems, total) →
  parsedItems !! i = l !! i ≫= parseItem.
Proof.
  intros [Hm _]%buildParsedItems_inv. apply mapM_Some in Hm.
  destruct (l !! i) as [item|] eqn:Hi; simpl.
  - destruct (Forall2_lookup_l _ _ _ _ _ Hm Hi) as (r & Hr & Hp). by rewrite Hr, Hp.
  - apply Forall2_length in Hm. apply lookup_ge_None in Hi.
    apply lookup_ge_None. lia.
Qed.

(** X4.  Whatever the input, a normalized item has a quantity that is
    neither 0 nor [NaN], a unit price and a list price that are not [NaN],
    a product reference that is truthy or [null] and a note that is truthy
    or the empty string. *)
Theorem normalized_item_invariants (item : value) (r : OrderItem) :
  parseItem item = Some r →
  truthy_num (qty r) = true ∧
  PrimFloat.is_nan (price r) = false ∧
  PrimFloat.is_nan (mrp r) = false ∧
  (ToBoolean (productId r) = true ∨ productId r = VNull) ∧
  (ToBoolean (note r) = true ∨ note r = VStr "").
Proof.
  intros (q & p & m & _ & _ & _ & -> & -> & -> & _ & [pid ->] & [n ->])%parseItem_inv.
  assert (∀ x, PrimFloat.is_nan (num_or x PrimFloat.zero) = false) as Hnan.
  { intros x. unfold num_or. destruct (truthy_num x) eqn:Hx; [|done].
    by apply truthy_num_spec in Hx as [? _]. }
  repeat split; try apply Hnan.
  - unfold num_or. by destruct (truthy_num q) eqn:Hq.
  - unfold js_or. destruct (ToBoolean pid) eqn:Hp; by eauto.
  - unfold js_or. destruct (ToBoolean n) eqn:Hn; by eauto.
Qed.

(** X5.  When every line total is falsy ([NaN] or a zero), the total
    amount is 0, not [NaN]. *)
Theorem total_of_falsy_lines (l : list value) (parsedItems : list OrderItem)
    (total : float) :
  buildParsedItems l = Some (parsedItems, total) →
  Forall (λ r, truthy_num (lineTotal r) = false) parsedItems →
  total = PrimFloat.zero.
Proof.
  intros [_ ->]%buildParsedItems_inv Hf.
  rewrite totalOf_sum_lineTotals. by apply sum_lineTotals_all_falsy.
Qed.

(** X6.  For an order of one item, the total amount is the line total of
    that item, or 0 when the line total is falsy. *)
Theorem total_of_one_line (item : value) (parsedItems : list OrderItem)
    (total : float) :
  buildParsedItems [item] = Some (parsedItems, total) →
  ∃ r, parsedItems = [r] ∧
       total = (if truthy_num (lineTotal r) then lineTotal r else PrimFloat.zero).
Proof.
  intros [Hm ->]%buildParsedItems_inv.
  apply mapM_Some in Hm. inversion Hm as [|? r ? rest _ Hrest]; subst.
  inversion Hrest; subst. exists r. split; [done|].
  rewrite totalOf_sum_lineTotals.
  destruct (truthy_num (lineTotal r)) eqn:Ht.
  - by apply sum_lineTotals_single.
  - apply sum_lineTotals_all_falsy. by constructor.
Qed.
End NormalizerMore.

(** ** Further properties of the routes *)

Section RouteInversions.
Context `{JsRuntime} `{Mongoose}.

(** What each writing route can have done, read off its branches. *)
Lemma post_orders_inv (b : value) (oid now : N) (st : Store) :
  ((post_orders b oid now st).2 = st ∧
   (code (post_orders b oid now st).1 = 400%N ∨
    code (post_orders b oid now st).1 = 500%N)) ∨
  ∃ sid sname its parsedItems total,
    ToBoolean sid = true ∧ elements its ≠ [] ∧
    buildParsedItems (elements its) = Some (parsedItems, total) ∧
    orders st !! oid = None ∧ online st = true ∧
    post_orders b oid now st
    = (respond 201 (OrderJson oid (new_order sid sname parsedItems total now)),
       set_orders (<[oid := new_order sid sname parsedItems total now]> (orders st)) st).
Proof.
  unfold post_orders, try_catch.
  destruct (prop b "shopId") as [sid|]; [|by left; eauto].
  destruct (prop b "shopName") as [sname|]; [|by left; eauto].
  destruct (prop b "items") as [its|]; [|by left; eauto]. simpl.
  destruct (ToBoolean sid) eqn:Hs; [|by left; eauto].
  destruct (isArray its) eqn:Ha; [|by left; eauto].
  destruct (elements its) as [|item l] eqn:Hl; [by left; eauto|]. simpl.
  destruct (buildParsedItems (item :: l)) as [[parsedItems total]|] eqn:Hb;
    [|by left; eauto]. simpl.
  unfold save_order. destruct (online st) eqn:Hon; [|by left; eauto].
  destruct (validOrder _); [|by left; eauto]. simpl.
  case_bool_decide as Hfresh; [|by left; eauto]. simpl.
  right. exists sid, sname, its, parsedItems, total. rewrite Hl. by eauto 10.
Qed.

Lemma put_order_inv (id : string) (b : value) (st : Store) :
  ((put_order id b st).2 = st ∧ error_code (code (put_order id b st).1)) ∨
  ∃ sid sname its parsedItems total oid o,
    ToBoolean sid = true ∧ elements its ≠ [] ∧
    buildParsedItems (elements its) = Some (parsedItems, total) ∧
    castObjectId id = Some oid ∧ orders st !! oid = Some o ∧
    let o' := apply_update (replace_update sid sname parsedItems total) o in
    put_order id b st
    = (respond 200 (OrderJson oid o'), set_orders (<[oid := o']> (orders st)) st).
Proof.
  unfold put_order, try_catch, error_code.
  destruct (prop b "shopId") as [sid|]; [|by left; eauto].
  destruct (prop b "shopName") as [sname|]; [|by left; eauto].
  destruct (prop b "items") as [its|]; [|by left; eauto]. simpl.
  destruct (ToBoolean sid) eqn:Hs; [|by left; eauto].
  destruct (isArray its) eqn:Ha; [|by left; eauto].
  destruct (elements its) as [|item l] eqn:Hl; [by left; eauto|]. simpl.
  destruct (buildParsedItems (item :: l)) as [[parsedItems total]|] eqn:Hb;
    [|by left; eauto]. simpl.
  unfold findByIdAndUpdate.
  destruct (online st && castUpdate _); [|by left; eauto].
  destruct (castObjectId id) as [oid|] eqn:Hc; [|by left; eauto]. simpl.
  destruct (orders st !! oid) as [o|] eqn:Ho; [|by left; eauto]. simpl.
  right. exists sid, sname, its, parsedItems, total, oid, o. rewrite Hl. by eauto 10.
Qed.

Lemma patch_order_status_inv (id : string) (b : value) (st : Store) :
  ((patch_order_status id b st).2 = st ∧
   error_code (code (patch_order_status id b st).1)) ∨
  ∃ s oid o,
    valid_status s ∧ castObjectId id = Some oid ∧ orders st !! oid = Some o ∧
    let o' := apply_update (status_update s) o in
    patch_order_status id b st
    = (respond 200 (OrderJson oid o'), set_orders (<[oid := o']> (orders st)) st).
Proof.
  unfold patch_order_status, try_catch, error_code.
  destruct (prop b "status") as [s|]; [|by left; eauto]. simpl.
  destruct (includes statuses s) eqn:Hi; [|by left; eauto]. simpl.
  apply includes_statuses in Hi.
  unfold findByIdAndUpdate.
  destruct (online st && castUpdate _); [|by left; eauto].
  destruct (castObjectId id) as [oid|] eqn:Hc; [|by left; eauto]. simpl.
  destruct (orders st !! oid) as [o|] eqn:Ho; [|by left; eauto]. simpl.
  right. exists s, oid, o. by eauto 10.
Qed.

Lemma delete_order_inv (rev : Revision) (id : string) (st : Store) :
  (handle rev (DeleteOrder id) st).2 = st ∨
  ∃ oid, castObjectId (trim id) = Some oid ∧ is_Some (orders st !! oid) ∧
         online st = true ∧
         code (handle rev (DeleteOrder id) st).1 = 200%N ∧
         (handle rev (DeleteOrder id) st).2
         = set_orders (delete oid (orders st)) st.
Proof.
  destruct rev; simpl;
    unfold Earlier.delete_order, Revised.delete_order, try_catch, deleteOne;
    (destruct (online st) eqn:Hon; [|by left]);
    (destruct (castObjectId (trim id)) as [oid|] eqn:Hc; [|by left]); simpl;
    (destruct (orders st !! oid) as [o|] eqn:Ho; [|by left]); simpl;
    right; exists oid; by eauto 10.
Qed.

Lemma post_products_inv (rev : Revision) (b : value) (pid now : N) (st : Store) :
  ((handle rev (PostProduct b pid now) st).2 = st ∧
   (code (handle rev (PostProduct b pid now) st).1 = 400%N ∨
    code (handle rev (PostProduct b pid now) st).1 = 500%N)) ∨
  ∃ p, products st !! pid = None ∧
       handle rev (PostProduct b pid now) st
       = (respond 201 (ProductJson pid p), set_products (<[pid := p]> (products st)) st).
Proof.
  destruct rev; simpl; unfold Earlier.post_products, Revised.post_products, try_catch;
    repeat (match goal with
            | |- context [prop ?b ?k] => destruct (prop b k); simpl; [|by left; eauto]
            | |- context [call_trim ?v] => destruct (call_trim v); simpl; [|by left; eauto]
            | |- context [ToNumber ?v] => destruct (ToNumber v); simpl; [|by left; eauto]
            | |- context [number_if_given ?v] =>
                destruct (number_if_given v); simpl; [|by left; eauto]
            | |- context [if ?b || ?c then _ else _] =>
                destruct (b || c); simpl; [by left; eauto|]
            end);
    unfold save_product;
    (destruct (online st && validProduct _); simpl; [|by left; eauto]);
    (case_bool_decide; simpl; [|by left; eauto]);
    right; by eauto.
Qed.
End RouteInversions.

Section RouteInvariants.
Context `{JsRuntime} `{Mongoose}.

Lemma set_orders_same (st : Store) (m : gmap N Order) :
  m = orders st → set_orders m st = st.
Proof. intros ->. by destruct st. Qed.

Lemma apply_status_update (s : value) (o : Order) :
  valid_status s →
  apply_update (status_update s) o
  = {| shopId := shopId o; shopName := shopName o; items := items o;
       totalAmount := totalAmount o; status := s; createdAt := createdAt o |}.
Proof. by intros [-> | [-> | ->]]. Qed.

Lemma buildParsedItems_products (l : list value) (parsedItems : list OrderItem)
    (total : float) :
  buildParsedItems l = Some (parsedItems, total) →
  length parsedItems = length l ∧
  Forall (λ r, lineTotal r = PrimFloat.mul (price r) (qty r)) parsedItems ∧
  total = totalOf parsedItems.
Proof.
  intros [Hm ->]%buildParsedItems_inv. split; [symmetry; by eapply length_mapM|].
  split; [|done]. apply mapM_Some in Hm.
  induction Hm as [|item r ? ? Hr _ IH]; constructor; [|done].
  by destruct (parseItem_inv _ _ Hr) as (? & ? & ? & _ & _ & _ & _ & _ & _ & ? & _).
Qed.

(** X7.  If every stored order has one of the three statuses, so has every
    stored order after any request, on either revision: the guard of the
    status route and the default of the schema keep any other value out. *)
Theorem statuses_stay_valid (rev : Revision) (req : Request) (st : Store) :
  statuses_valid st → statuses_valid (handle rev req st).2.
Proof.
  intros Hv oid0 o0. destruct req as [b pid now|b oid now|id b|id b|id].
  - destruct (post_products_inv rev b pid now st) as [[-> _]|(p & _ & ->)];
      [apply Hv|]. simpl. apply Hv.
  - replace (handle rev (PostOrder b oid now) st) with (post_orders b oid now st)
      by by destruct rev.
    destruct (post_orders_inv b oid now st)
      as [[-> _]|(sid & sname & its & ps & t & _ & _ & _ & _ & _ & ->)]; [apply Hv|].
    simpl. destruct (decide (oid = oid0)) as [->|Hne].
    + rewrite lookup_insert_eq. intros [= <-]. by left.
    + rewrite lookup_insert_ne by done. apply Hv.
  - replace (handle rev (PutOrder id b) st) with (put_order id b st)
      by by destruct rev.
    intros Ho'. pose proof (put_order_frame id b st oid0) as Hf.
    rewrite Ho' in Hf. destruct (orders st !! oid0) as [o|] eqn:Ho; [|done].
    simpl in Hf. injection Hf as ->. by eapply Hv.
  - replace (handle rev (PatchOrderStatus id b) st) with (patch_order_status id b st)
      by by destruct rev.
    destruct (patch_order_status_inv id b st)
      as [[-> _]|(s & oid & o & Hs & _ & _ & Heq)]; [apply Hv|].
    simpl in Heq. rewrite Heq. simpl.
    destruct (decide (oid = oid0)) as [->|Hne].
    + rewrite lookup_insert_eq. intros [= <-]. by rewrite apply_status_update.
    + rewrite lookup_insert_ne by done. apply Hv.
  - intros Ho'%delete_order_frame. by eapply Hv.
Qed.

(** X8.  A request answered with 400, 404 or 500 leaves the store exactly
    as it was, on either revision: no route writes before it reports an
    error. *)
Theorem error_leaves_store (rev : Revision) (req : Request) (st : Store) :
  error_code (code (handle rev req st).1) → (handle rev req st).2 = st.
Proof.
  unfold error_code. destruct req as [b pid now|b oid now|id b|id b|id].
  - destruct (post_products_inv rev b pid now st) as [[-> _]|(p & _ & ->)]; [done|].
    simpl. by intros [?|[?|?]].
  - replace (handle rev (PostOrder b oid now) st) with (post_orders b oid now st)
      by by destruct rev.
    destruct (post_orders_inv b oid now st)
      as [[-> _]|(sid & sname & its & ps & t & _ & _ & _ & _ & _ & ->)]; [done|].
    simpl. by intros [?|[?|?]].
  - replace (handle rev (PutOrder id b) st) with (put_order id b st)
      by by destruct rev.
    destruct (put_order_inv id b st)
      as [[-> _]|(sid & sname & its & ps & t & oid & o & _ & _ & _ & _ & _ & Heq)];
      [done|].
    simpl in Heq. rewrite Heq. simpl. by intros [?|[?|?]].
  - replace (handle rev (PatchOrderStatus id b) st) with (patch_order_status id b st)
      by by destruct rev.
    destruct (patch_order_status_inv id b st)
      as [[-> _]|(s & oid & o & _ & _ & _ & Heq)]; [done|].
    simpl in Heq. rewrite Heq. simpl. by intros [?|[?|?]].
  - destruct (delete_order_inv rev id st) as [->|(oid & _ & _ & _ & -> & _)]; [done|].
    by intros [?|[?|?]].
Qed.

(** X9.  If every stored order has at least one line item, line totals
    that are price times quantity and a total amount that is the sum of
    its line totals, the same holds after any request, on either
    revision. *)
Theorem orders_stay_consistent (rev : Revision) (req : Request) (st : Store) :
  store_consistent st → store_consistent (handle rev req st).2.
Proof.
  intros Hv oid0 o0.
  assert (∀ l (ps : list OrderItem) t sid sname now,
            l ≠ [] → buildParsedItems l = Some (ps, t) →
            order_consistent (new_order sid sname ps t now)) as Hnew.
  { intros l ps t sid sname now Hl (Hlen & Hprod & Ht)%buildParsedItems_products.
    repeat split; simpl; try done. intros ->. by destruct l. }
  destruct req as [b pid now|b oid now|id b|id b|id].
  - destruct (post_products_inv rev b pid now st) as [[-> _]|(p & _ & ->)];
      [apply Hv|]. simpl. apply Hv.
  - replace (handle rev (PostOrder b oid now) st) with (post_orders b oid now st)
      by by destruct rev.
    destruct (post_orders_inv b oid now st)
      as [[-> _]|(sid & sname & its & ps & t & _ & Hne & Hb & _ & _ & ->)]; [apply Hv|].
    simpl. destruct (decide (oid = oid0)) as [->|Hneq].
    + rewrite lookup_insert_eq. intros [= <-]. by eapply Hnew.
    + rewrite lookup_insert_ne by done. apply Hv.
  - replace (handle rev (PutOrder id b) st) with (put_order id b st)
      by by destruct rev.
    destruct (put_order_inv id b st)
      as [[-> _]|(sid & sname & its & ps & t & oid & o & Hs & Hne & Hb & _ & _ & Heq)];
      [apply Hv|].
    simpl in Heq. rewrite Heq. simpl.
    destruct (decide (oid = oid0)) as [->|Hneq].
    + rewrite lookup_insert_eq. intros [= <-].
      rewrite (apply_replace_update _ _ _ _ _ Hs).
      exact (Hnew _ _ _ sid sname 0%N Hne Hb).
    + rewrite lookup_insert_ne by done. apply Hv.
  - replace (handle rev (PatchOrderStatus id b) st) with (patch_order_status id b st)
      by by destruct rev.
    destruct (patch_order_status_inv id b st)
      as [[-> _]|(s & oid & o & Hs & _ & Ho & Heq)]; [apply Hv|].
    simpl in Heq. rewrite Heq. simpl.
    destruct (decide (oid = oid0)) as [->|Hneq].
    + rewrite lookup_insert_eq. intros [= <-]. rewrite apply_status_update by done.
      exact (Hv _ _ Ho).
    + rewrite lookup_insert_ne by done. apply Hv.
  - intros Ho'%delete_order_frame. by eapply Hv.
Qed.
End RouteInvariants.

Section RouteComposition.
Context `{JsRuntime} `{Mongoose}.

Lemma apply_update_idem (u : OrderUpdate) (o : Order) :
  apply_update u (apply_update u o) = apply_update u o.
Proof.
  unfold apply_update. simpl. f_equal.
  - destruct (u_shopId u) as [[]|]; done.
  - destruct (u_shopName u) as [[]|]; done.
  - by destruct (u_items u).
  - by destruct (u_totalAmount u).
  - destruct (u_status u) as [[]|]; done.
Qed.

Lemma findByIdAndUpdate_again (id : string) (u : OrderUpdate) (st st' : Store)
    (found : option (N * Order)) :
  findByIdAndUpdate id u st = Some (found, st') →
  findByIdAndUpdate id u st' = Some (found, st').
Proof.
  unfold findByIdAndUpdate.
  destruct (online st && castUpdate u) eqn:Hon; [|done].
  destruct (castObjectId id) as [oid|]; [|done]. simpl.
  destruct (orders st !! oid) as [o|] eqn:Ho; intros [= <- <-]; simpl.
  - rewrite Hon, lookup_insert_eq, apply_update_idem.
    unfold set_orders. simpl. by rewrite insert_insert_eq.
  - by rewrite Hon, Ho.
Qed.

(** X10.  Sending the same status change a second time changes nothing
    more: the answer and the store are those of the first time. *)
Theorem status_change_idempotent (id : string) (b : value) (st : Store) :
  patch_order_status id b (patch_order_status id b st).2
  = patch_order_status id b st.
Proof.
  unfold patch_order_status, try_catch.
  destruct (prop b "status") as [s|]; [|done]. simpl.
  destruct (includes statuses s); [|done]. simpl.
  destruct (findByIdAndUpdate id (status_update s) st) as [[found st']|] eqn:Hf;
    [|simpl; by rewrite Hf].
  simpl. assert ((match found with
                  | Some (oid, o) => Some (respond 200 (OrderJson oid o), st')
                  | None => Some (respond 404 (Message "Order not found"), st')
                  end) = Some ((match found with
                                | Some (oid, o) => respond 200 (OrderJson oid o)
                                | None => respond 404 (Message "Order not found")
                                end), st')) as Hshape by by destruct found as [[]|].
  rewrite Hshape. simpl.
  rewrite (findByIdAndUpdate_again _ _ _ _ _ Hf). simpl. by rewrite Hshape.
Qed.

Lemma dom_insert_existing (m : gmap N Order) (oid : N) (o o' : Order) :
  m !! oid = Some o → dom (<[oid := o']> m) = dom m.
Proof.
  intros Ho%(elem_of_dom_2 (D := gset N)). rewrite dom_insert_L.
  by apply subseteq_union_1_L, singleton_subseteq_l.
Qed.

(** X12.  A full replace or a status change never adds or removes an
    order, and leaves every order but the one its identifier casts to as it
    was. *)
Theorem update_touches_one_order (id : string) (b : value) (st : Store) :
  dom (orders (put_order id b st).2) = dom (orders st) ∧
  dom (orders (patch_order_status id b st).2) = dom (orders st) ∧
  ∀ oid0, castObjectId id ≠ Some oid0 →
    orders (put_order id b st).2 !! oid0 = orders st !! oid0 ∧
    orders (patch_order_status id b st).2 !! oid0 = orders st !! oid0.
Proof.
  assert (dom (orders (put_order id b st).2) = dom (orders st) ∧
          ∀ oid0, castObjectId id ≠ Some oid0 →
                  orders (put_order id b st).2 !! oid0 = orders st !! oid0)
    as [Hput_dom Hput].
  { destruct (put_order_inv id b st)
      as [[-> _]|(sid & sname & its & ps & t & oid & o & _ & _ & _ & Hc & Ho & Heq)];
      [done|].
    simpl in Heq. rewrite Heq. simpl. split.
    - by eapply dom_insert_existing.
    - intros oid0 Hne. rewrite lookup_insert_ne; [done|congruence]. }
  assert (dom (orders (patch_order_status id b st).2) = dom (orders st) ∧
          ∀ oid0, castObjectId id ≠ Some oid0 →
                  orders (patch_order_status id b st).2 !! oid0 = orders st !! oid0)
    as [Hpatch_dom Hpatch].
  { destruct (patch_order_status_inv id b st)
      as [[-> _]|(s & oid & o & _ & Hc & Ho & Heq)]; [done|].
    simpl in Heq. rewrite Heq. simpl. split.
    - by eapply dom_insert_existing.
    - intros oid0 Hne. rewrite lookup_insert_ne; [done|congruence]. }
  split; [done|]. split; [done|]. intros oid0 Hne. split; by auto.
Qed.

(** X13.  A status change with a valid status whose identifier resolves to
    no order is answered 404 and the store is as it was. *)
Theorem status_change_unknown_order (id : string) (b s : value) (st : Store) (oid : N) :
  prop b "status" = Some s → valid_status s →
  online st = true → castUpdate (status_update s) = true →
  castObjectId id = Some oid → orders st !! oid = None →
  patch_order_status id b st = (respond 404 (Message "Order not found"), st).
Proof.
  intros Hs Hv Hon Hu Hc Ho. unfold patch_order_status. rewrite Hs. simpl.
  rewrite (proj2 (includes_statuses s) Hv). simpl.
  unfold findByIdAndUpdate. rewrite Hon, Hu, Hc. simpl. by rewrite Ho.
Qed.

(** X14.  A full replace that passes the checks but whose identifier
    resolves to no order is answered 404 and creates nothing. *)
Theorem full_replace_unknown_order (id : string) (b sid sname its : value)
    (st : Store) (parsedItems : list OrderItem) (total : float) (oid : N) :
  prop b "shopId" = Some sid → prop b "shopName" = Some sname →
  prop b "items" = Some its →
  ToBoolean sid = true → isArray its = true → elements its ≠ [] →
  buildParsedItems (elements its) = Some (parsedItems, total) →
  online st = true →
  castUpdate (replace_update sid sname parsedItems total) = true →
  castObjectId id = Some oid → orders st !! oid = None →
  put_order id b st = (respond 404 (Message "Order not found"), st).
Proof.
  intros Hid Hname Hits Hshop Harr Hne Hb Hon Hu Hc Ho.
  unfold put_order. rewrite Hid, Hname, Hits. simpl.
  rewrite (gate_passes _ _ Hshop Harr Hne), Hb. simpl.
  unfold findByIdAndUpdate. rewrite Hon, Hu, Hc. simpl. by rewrite Ho.
Qed.

(** X15.  No request changes the creation time of an order that stays in
    the store, and only a full replace changes its shop, its items or its
    total amount. *)
Theorem order_contents_frame (rev : Revision) (req : Request) (st : Store)
    (oid0 : N) (o0 o0' : Order) :
  orders st !! oid0 = Some o0 →
  orders (handle rev req st).2 !! oid0 = Some o0' →
  createdAt o0' = createdAt o0 ∧
  (is_full_replace req = false →
     shopId o0' = shopId o0 ∧ shopName o0' = shopName o0 ∧
     items o0' = items o0 ∧ totalAmount o0' = totalAmount o0).
Proof.
  intros Ho. destruct req as [b pid now|b oid now|id b|id b|id].
  - rewrite post_products_frame, Ho. by intros [= ->].
  - replace (handle rev (PostOrder b oid now) st) with (post_orders b oid now st)
      by by destruct rev.
    rewrite (post_orders_frame _ _ _ _ _ _ Ho). by intros [= ->].
  - replace (handle rev (PutOrder id b) st) with (put_order id b st)
      by by destruct rev.
    destruct (put_order_inv id b st)
      as [[-> _]|(sid & sname & its & ps & t & oid & o & _ & _ & _ & _ & Ho1 & Heq)].
    + rewrite Ho. by intros [= ->].
    + simpl in Heq. rewrite Heq. simpl.
      destruct (decide (oid = oid0)) as [->|Hne].
      * rewrite lookup_insert_eq. intros [= <-]. rewrite Ho in Ho1.
        injection Ho1 as ->. done.
      * rewrite lookup_insert_ne, Ho by done. by intros [= ->].
  - replace (handle rev (PatchOrderStatus id b) st) with (patch_order_status id b st)
      by by destruct rev.
    destruct (patch_order_status_inv id b st)
      as [[-> _]|(s & oid & o & Hs & _ & Ho1 & Heq)].
    + rewrite Ho. by intros [= ->].
    + simpl in Heq. rewrite Heq. simpl.
      destruct (decide (oid = oid0)) as [->|Hne].
      * rewrite lookup_insert_eq. intros [= <-]. rewrite Ho in Ho1.
        injection Ho1 as ->. by rewrite apply_status_update.
      * rewrite lookup_insert_ne, Ho by done. by intros [= ->].
  - intros Ho'%delete_order_frame. rewrite Ho in Ho'. by injection Ho' as ->.
Qed.

(** X16.  No request changes whether the store is reachable; the order
    routes leave the products as they were and the product route leaves the
    orders as they were. *)
Theorem collections_frame (rev : Revision) (req : Request) (st : Store) :
  online (handle rev req st).2 = online st ∧
  (is_product_creation req = false → products (handle rev req st).2 = products st) ∧
  (is_product_creation req = true → orders (handle rev req st).2 = orders st).
Proof.
  destruct req as [b pid now|b oid now|id b|id b|id].
  - destruct (post_products_inv rev b pid now st) as [[-> _]|(p & _ & ->)]; done.
  - replace (handle rev (PostOrder b oid now) st) with (post_orders b oid now st)
      by by destruct rev.
    destruct (post_orders_inv b oid now st)
      as [[-> _]|(sid & sname & its & ps & t & _ & _ & _ & _ & _ & ->)]; done.
  - replace (handle rev (PutOrder id b) st) with (put_order id b st)
      by by destruct rev.
    destruct (put_order_inv id b st)
      as [[-> _]|(sid & sname & its & ps & t & oid & o & _ & _ & _ & _ & _ & Heq)];
      [done|]. simpl in Heq. by rewrite Heq.
  - replace (handle rev (PatchOrderStatus id b) st) with (patch_order_status id b st)
      by by destruct rev.
    destruct (patch_order_status_inv id b st)
      as [[-> _]|(s & oid & o & _ & _ & _ & Heq)]; [done|].
    simpl in Heq. by rewrite Heq.
  - destruct (delete_order_inv rev id st) as [->|(oid & _ & _ & _ & _ & ->)]; done.
Qed.
End RouteComposition.

Section RouteSequences.
Context `{JsRuntime} `{Mongoose}.

(** X17.  Deleting an order that has just been created gives back the
    store as it was before the creation, on either revision. *)
Theorem create_then_delete (rev : Revision) (b : value) (oid now : N)
    (id : string) (st : Store) :
  code (post_orders b oid now st).1 = 201%N →
  castObjectId (trim id) = Some oid →
  code (handle rev (DeleteOrder id) (post_orders b oid now st).2).1 = 200%N ∧
  (handle rev (DeleteOrder id) (post_orders b oid now st).2).2 = st.
Proof.
  intros Hcode Hc.
  destruct (post_orders_inv b oid now st)
    as [[_ [Hbad|Hbad]]|(sid & sname & its & ps & t & _ & _ & _ & Hfresh & Hon & Heq)];
    [by rewrite Hbad in Hcode ..|].
  rewrite Heq. simpl.
  destruct rev; simpl; unfold Earlier.delete_order, Revised.delete_order, deleteOne;
    simpl; rewrite Hon, Hc; simpl; rewrite lookup_insert_eq; simpl;
    (split; [done|]); unfold set_orders; simpl;
    rewrite (delete_insert_id _ _ _ Hfresh); by destruct st.
Qed.

(** X18.  After a DELETE on a reachable store the identifier resolves to
    no order: the same DELETE sent again reports zero records deleted, with
    404 in the revised route and 200 in the earlier one, and changes
    nothing. *)
Theorem delete_twice (id : string) (st : Store) (oid : N) :
  online st = true → castObjectId (trim id) = Some oid →
  orders (Revised.delete_order id st).2 !! oid = None ∧
  Revised.delete_order id (Revised.delete_order id st).2
  = (respond 404 (Deleted "Order not found" 0), (Revised.delete_order id st).2) ∧
  Earlier.delete_order id (Earlier.delete_order id st).2
  = (respond 200 (Deleted "Order not found or already deleted" 0),
     (Earlier.delete_order id st).2).
Proof.
  intros Hon Hc. unfold Revised.delete_order, Earlier.delete_order, deleteOne.
  rewrite Hon, Hc. simpl.
  destruct (orders st !! oid) as [o|] eqn:Ho; simpl;
    rewrite ?Hon, ?Hc; simpl; rewrite ?lookup_delete_eq, ?Ho; done.
Qed.

(** X19.  The earlier DELETE route answers 200 whatever happens, also when
    the store call throws, and it changes the store exactly as the revised
    route does. *)
Theorem earlier_delete_always_200 (id : string) (st : Store) :
  code (Earlier.delete_order id st).1 = 200%N ∧
  (Earlier.delete_order id st).2 = (Revised.delete_order id st).2.
Proof.
  unfold Earlier.delete_order, Revised.delete_order, try_catch.
  destruct (deleteOne (trim id) st) as [[n st']|]; [|done]. simpl.
  by destruct (0 <? n)%N.
Qed.

(** X20.  On a request that gives a price and no sale price, the two
    product routes answer with the same status and leave the same store;
    when they create the product, it is the same product. *)
Theorem product_routes_agree (b price salePrice : value) (pid now : N)
    (st : Store) :
  prop b "price" = Some price → prop b "salePrice" = Some salePrice →
  is_nullish price = false → is_nullish salePrice = true →
  code (Earlier.post_products b pid now st).1
  = code (Revised.post_products b pid now st).1 ∧
  (Earlier.post_products b pid now st).2 = (Revised.post_products b pid now st).2 ∧
  (code (Revised.post_products b pid now st).1 = 201%N →
     Earlier.post_products b pid now st = Revised.post_products b pid now st).
Proof.
  intros Hprice Hsale Hp Hs.
  unfold Earlier.post_products, Revised.post_products, try_catch, number_if_given.
  destruct (prop b "name") as [nm|]; [|done].
  destruct (prop b "mrp") as [m|]; [|done].
  rewrite Hprice, Hsale. simpl. rewrite Hp, orb_false_r.
  destruct (_ || _); [done|].
  destruct (call_trim nm); [|done]. simpl.
  destruct (ToNumber m); [|done]. simpl.
  destruct (ToNumber price); [|done]. simpl. rewrite Hs. simpl.
  by destruct (save_product _ _ st).
Qed.

(** X21.  A product-creation request whose [name] is truthy but not a
    string (a number, [true], a list, an object) passes the check and then
    fails on [name.trim()]: the answer is 500 and nothing is stored. *)
Theorem product_name_not_a_string (b name mrp price : value) (pid now : N)
    (st : Store) :
  prop b "name" = Some name → prop b "mrp" = Some mrp → prop b "price" = Some price →
  ToBoolean name = true → (∀ s, name ≠ VStr s) →
  is_nullish mrp = false →
  Revised.post_products b pid now st
  = (respond 500 (Message "Error creating product"), st) ∧
  (is_nullish price = false →
     Earlier.post_products b pid now st
     = (respond 500 (Message "Error creating product"), st)).
Proof.
  intros Hname Hmrp Hprice Ht Hns Hm.
  destruct (prop_is_Some b "name" "salePrice") as [salePrice Hsale]; [by eauto|].
  unfold Revised.post_products, Earlier.post_products.
  rewrite Hname, Hmrp, Hprice, Hsale. simpl. rewrite Ht, Hm. simpl.
  assert (call_trim name = None) as ->.
  { destruct name; try done. by destruct (Hns s). }
  split; [done|]. by intros ->.
Qed.

(** X22.  When the revised route creates a product (201), [name] was a
    string, the product is stored under the new identifier with the
    trimmed name, with a price exactly when the request gave one and a sale
    price exactly when it gave one, and every other product is as it
    was. *)
Theorem product_created (b name price salePrice : value) (pid now : N) (st : Store) :
  prop b "name" = Some name → prop b "price" = Some price →
  prop b "salePrice" = Some salePrice →
  code (Revised.post_products b pid now st).1 = 201%N →
  ∃ s p,
    name = VStr s ∧
    products (Revised.post_products b pid now st).2 !! pid = Some p ∧
    pr_name p = trim s ∧ pr_createdAt p = now ∧
    (pr_price p = None ↔ is_nullish price = true) ∧
    (pr_salePrice p = None ↔ is_nullish salePrice = true) ∧
    ∀ pid0, pid0 ≠ pid →
      products (Revised.post_products b pid now st).2 !! pid0 = products st !! pid0.
Proof.
  intros Hname Hprice Hsale.
  unfold Revised.post_products, try_catch. rewrite Hname, Hprice, Hsale.
  destruct (prop b "mrp") as [m|]; [|done]. simpl.
  destruct (_ || _); [done|].
  destruct name as [| | | |s| |]; try done. simpl.
  destruct (ToNumber m); [|done]. simpl.
  destruct (number_if_given price) as [p|] eqn:Hp; [|done]. simpl.
  destruct (number_if_given salePrice) as [sp|] eqn:Hsp; [|done]. simpl.
  unfold save_product. destruct (online st && validProduct _); [|done]. simpl.
  case_bool_decide; [|done]. simpl. intros _.
  eexists s, _. split; [done|]. rewrite lookup_insert_eq. split; [done|]. simpl.
  assert (∀ v o, number_if_given v = Some o → o = None ↔ is_nullish v = true) as Hgiven.
  { intros v o. unfold number_if_given. destruct (is_nullish v).
    - by intros [= <-].
    - destruct (ToNumber v); [|done]. simpl. by intros [= <-]. }
  repeat split; try (by apply Hgiven); try (by apply Hgiven).
  intros pid0 Hne. by rewrite lookup_insert_ne.
Qed.
End RouteSequences.

(** ** Shops and listings *)

Section Listings.
Context `{JsRuntime} `{Mongoose}.

#[local] Instance by_shop_name_total : Total by_shop_name.
Proof. intros a b. apply String.leb_total. Qed.

#[local] Instance by_product_name_total : Total by_product_name.
Proof. intros a b. apply String.leb_total. Qed.

#[local] Instance newest_first_total : Total newest_first.
Proof. intros a b. unfold newest_first. lia. Qed.

#[local] Instance newest_first_trans : Transitive newest_first.
Proof. intros a b c. unfold newest_first. lia. Qed.

(** X23.  Shop creation: a missing (falsy) name or a string that trims to
    nothing is answered 400; a truthy name that is not a string is answered
    500; in both cases nothing is stored.  A string that trims to a
    non-empty name is stored under the new identifier, trimmed, and
    answered 201, when the store is reachable and the identifier is free. *)
Theorem shop_creation (b name : value) (sid now : N) (db : Database) :
  prop b "name" = Some name →
  (ToBoolean name = false ∨ (∃ s, name = VStr s ∧ trim s = "") →
     post_shops b sid now db
     = ({| sh_code := 400; sh_body := ShopMessage "Shop name is required" |}, db)) ∧
  (ToBoolean name = true → (∀ s, name ≠ VStr s) →
     post_shops b sid now db
     = ({| sh_code := 500; sh_body := ShopMessage "Error creating shop" |}, db)) ∧
  (∀ s, name = VStr s → s ≠ "" → trim s ≠ "" →
     online (store db) = true → shops db !! sid = None →
     let shop := {| sh_name := trim s; sh_createdAt := now |} in
     post_shops b sid now db
     = ({| sh_code := 201; sh_body := ShopJson sid shop |},
        {| store := store db; shops := <[sid := shop]> (shops db) |})).
Proof.
  intros Hname. unfold post_shops. rewrite Hname. simpl. split; [|split].
  - intros [->|(s & -> & Hs)]; [done|]. simpl.
    destruct (String.eqb s ""); [done|]. simpl. by rewrite Hs.
  - intros -> Hns. simpl. destruct name; try done. by destruct (Hns s).
  - intros s -> Hs Ht Hon Hfresh. simpl.
    apply String.eqb_neq in Hs, Ht. rewrite Hs. simpl. rewrite Ht. simpl.
    unfold save_shop. simpl. rewrite Hon, Ht. simpl.
    by rewrite bool_decide_eq_true_2.
Qed.

(** X24.  The shop listing, when the store is reachable, holds every
    stored shop exactly once, in ascending order of name. *)
Theorem shops_listed_by_name (db : Database) :
  online (store db) = true →
  ∃ docs, get_shops db = Listed docs ∧
          NoDup docs ∧
          Sorted by_shop_name docs ∧
          ∀ sid s, (sid, s) ∈ docs ↔ shops db !! sid = Some s.
Proof.
  intros Hon. unfold get_shops. rewrite Hon. eexists. split; [done|].
  split; [|split].
  - rewrite merge_sort_Permutation. apply NoDup_map_to_list.
  - apply (Sorted_merge_sort _).
  - intros sid s. rewrite merge_sort_Permutation. apply elem_of_map_to_list.
Qed.

(** X25.  The product listing, when the store is reachable, holds every
    stored product exactly once, in ascending order of name. *)
Theorem products_listed_by_name (st : Store) :
  online st = true →
  ∃ docs, get_products st = Listed docs ∧
          NoDup docs ∧
          Sorted by_product_name docs ∧
          ∀ pid p, (pid, p) ∈ docs ↔ products st !! pid = Some p.
Proof.
  intros Hon. unfold get_products. rewrite Hon. eexists. split; [done|].
  split; [|split].
  - rewrite merge_sort_Permutation. apply NoDup_map_to_list.
  - apply (Sorted_merge_sort _).
  - intros pid p. rewrite merge_sort_Permutation. apply elem_of_map_to_list.
Qed.

(** X26.  A shop that has just been created is in the next listing. *)
Theorem created_shop_is_listed (b : value) (sid now : N) (db : Database) :
  sh_code (post_shops b sid now db).1 = 201%N →
  ∃ s docs, sh_body (post_shops b sid now db).1 = ShopJson sid s ∧
            get_shops (post_shops b sid now db).2 = Listed docs ∧
            (sid, s) ∈ docs.
Proof.
  unfold post_shops, try_catch.
  destruct (prop b "name") as [name|]; [|done]. simpl.
  destruct (ToBoolean name); [|done]. simpl.
  destruct (call_trim name) as [t|]; [|done]. simpl.
  destruct (String.eqb t ""); [done|].
  unfold save_shop. simpl.
  destruct (online (store db)) eqn:Hon; [|done].
  destruct (negb _); [|done]. simpl.
  case_bool_decide; [|done]. simpl. intros _.
  eexists _, _. split; [done|]. unfold get_shops. simpl. rewrite Hon.
  split; [done|]. rewrite merge_sort_Permutation.
  apply elem_of_map_to_list. by rewrite lookup_insert_eq.
Qed.

Lemma and_iff_both (A B C D : Prop) : (A ↔ C) → (B ↔ D) → (A ∧ B ↔ C ∧ D).
Proof. tauto. Qed.

(** X27.  The order listing, when the store is reachable and the shop
    asked for (if any) casts to an ObjectId, holds exactly the stored
    orders of that shop (when a shop is asked for) with that status (when a
    status is asked for), each once, the newest first.  An empty parameter
    asks for nothing. *)
Theorem orders_listed (q_shopId q_status : option string) (st : Store) :
  online st = true →
  (∀ s, param_given q_shopId = Some s → is_Some (castObjectId s)) →
  ∃ docs, get_orders q_shopId q_status st = Listed docs ∧
          NoDup docs ∧
          StronglySorted newest_first docs ∧
          ∀ oid o, (oid, o) ∈ docs ↔
            orders st !! oid = Some o ∧
            (∀ s, param_given q_shopId = Some s →
                  ∃ s', shopId o = VStr s' ∧ castObjectId s' = castObjectId s) ∧
            (∀ w, param_given q_status = Some w → status o = VStr w).
Proof.
  intros Hon Hcast. unfold get_orders. rewrite Hon.
  assert (∀ (shop : option N) (wanted : option string) doc,
            matches shop wanted doc = true ↔
            (∀ oid, shop = Some oid →
                    ∃ s', shopId doc.2 = VStr s' ∧ castObjectId s' = Some oid) ∧
            (∀ w, wanted = Some w → status doc.2 = VStr w)) as Hmatch.
  { intros shop wanted [oid o]. unfold matches. simpl.
    rewrite andb_true_iff.
    apply and_iff_both.
    - destruct shop as [oid'|]; [|by split; [intros _ ? [=]|]].
      destruct (shopId o) as [| | | |s'| |];
        try (split; [done|]; intros Hs; by destruct (Hs _ eq_refl) as (? & ? & _)).
      rewrite bool_decide_eq_true. split.
      + intros Hs ? [= <-]. by eauto.
      + intros Hs. destruct (Hs _ eq_refl) as (? & [= <-] & ?). done.
    - destruct wanted as [w|]; [|by split; [intros _ ? [=]|]].
      destruct (status o) as [| | | |s'| |];
        try (split; [done|]; intros Hs; by specialize (Hs _ eq_refl)).
      rewrite String.eqb_eq. split.
      + by intros -> ? [= <-].
      + intros Hs. by injection (Hs _ eq_refl). }
  assert (∀ shop wanted,
            let docs := merge_sort newest_first
                          (filter (λ doc, matches shop wanted doc = true)
                                  (map_to_list (orders st))) in
            NoDup docs ∧ StronglySorted newest_first docs ∧
            ∀ oid o, (oid, o) ∈ docs ↔
                     orders st !! oid = Some o ∧ matches shop wanted (oid, o) = true)
    as Hlist.
  { intros shop wanted docs. unfold docs. split; [|split].
    - rewrite merge_sort_Permutation. apply NoDup_filter, NoDup_map_to_list.
    - apply (StronglySorted_merge_sort _).
    - intros oid o. rewrite merge_sort_Permutation, list_elem_of_filter,
        elem_of_map_to_list. tauto. }
  destruct (param_given q_shopId) as [s|] eqn:Hs.
  - destruct (Hcast s eq_refl) as [oid Hoid]. rewrite Hoid.
    eexists. split; [done|].
    destruct (Hlist (Some oid) (param_given q_status)) as (Hnd & Hsorted & Hin).
    split; [done|]. split; [done|]. intros oid0 o.
    rewrite Hin, Hmatch. simpl. split.
    + intros (Ho & Hshop & Hst). split; [done|]. split; [|done].
      intros ? [= <-]. rewrite Hoid. by apply Hshop.
    + intros (Ho & Hshop & Hst). split; [done|]. split; [|done].
      intros ? [= <-]. rewrite <- Hoid. by apply Hshop.
  - eexists. split; [done|].
    destruct (Hlist None (param_given q_status)) as (Hnd & Hsorted & Hin).
    split; [done|]. split; [done|]. intros oid0 o.
    rewrite Hin, Hmatch. simpl. split.
    + intros (Ho & _ & Hst). by eauto.
    + intros (Ho & _ & Hst). split; [done|]. split; [by intros ? [=]|done].
Qed.
End Listings.

(** ** The claims on concrete requests *)

Import Sample.

Lemma qty_defaulting_witness :
  prop zero_qty_item "qty" ≫= ToNumber = Some 0%float ∧
  ∃ r, parseItem zero_qty_item = Some r ∧ qty r = PrimFloat.one.
Proof.
  split; [reflexivity|].
  destruct (qty_defaulting zero_qty_item 0 10 PrimFloat.nan)
    as (r & Hr & _ & Hzero & _); [vm_compute; reflexivity ..|].
  exists r. split; [exact Hr | exact (Hzero eq_refl)].
Defined.

Lemma price_mrp_defaulting_witness :
  prop zero_qty_item "mrp" ≫= ToNumber = Some PrimFloat.nan ∧
  ∃ r, parseItem zero_qty_item = Some r ∧ price r = 10%float ∧ mrp r = 0%float.
Proof.
  split; [reflexivity|].
  destruct (price_mrp_defaulting zero_qty_item 0 10 PrimFloat.nan)
    as (r & Hr & _ & _ & Hp & Hm & _); [vm_compute; reflexivity ..|].
  exists r. split; [exact Hr|]. split; [exact (Hp eq_refl) | exact (Hm eq_refl)].
Defined.

Lemma lineTotal_is_product_witness :
  buildParsedItems [zero_qty_item] = Some ([ten_for_one], 10%float) ∧
  Forall (λ r, lineTotal r = PrimFloat.mul (price r) (qty r)) [ten_for_one].
Proof.
  split; [vm_compute; reflexivity|].
  apply (lineTotal_is_product [zero_qty_item] [ten_for_one] 10).
  vm_compute; reflexivity.
Defined.

Lemma totalAmount_is_sum_witness :
  buildParsedItems [zero_qty_item] = Some ([ten_for_one], 10%float) ∧
  10%float = sum_lineTotals [ten_for_one] ∧ length [ten_for_one] = 1.
Proof.
  split; [vm_compute; reflexivity|].
  destruct (totalAmount_is_sum [zero_qty_item] [ten_for_one] 10) as (Hsum & Hlen & _);
    [vm_compute; reflexivity|].
  split; [exact Hsum | exact Hlen].
Defined.

Lemma normalization_idempotent_witness :
  buildParsedItems [zero_qty_item] = Some ([ten_for_one], 10%float) ∧
  buildParsedItems [item_to_value ten_for_one] = Some ([ten_for_one], 10%float).
Proof.
  split; [vm_compute; reflexivity|].
  apply (normalization_idempotent [zero_qty_item] [ten_for_one] 10).
  vm_compute; reflexivity.
Defined.

Lemma status_change_validated_witness :
  prop (VObj [("status", VStr "Shipped")]) "status" = Some (VStr "Shipped") ∧
  patch_order_status order_7 (VObj [("status", VStr "Shipped")]) one_order_store
  = (respond 400 (Message "Invalid status"), one_order_store) ∧
  (patch_order_status order_7 (VObj [("status", VStr "Pending")]) one_order_store).1
  = respond 200 (OrderJson 7 (new_order (VStr shop_a) (VStr "A") [ten_for_one] 10 1)) ∧
  orders (patch_order_status order_7 (VObj [("status", VStr "Pending")])
            one_order_store).2 !! 7%N
  = Some (new_order (VStr shop_a) (VStr "A") [ten_for_one] 10 1).
Proof.
  split; [reflexivity|]. split.
  - apply (status_change_validated order_7 _ (VStr "Shipped") one_order_store);
      [reflexivity|].
    intros [Hv|[Hv|Hv]]; discriminate Hv.
  - destruct (status_change_validated order_7 (VObj [("status", VStr "Pending")])
                (VStr "Pending") one_order_store eq_refl) as [_ Hvalid].
    destruct (Hvalid (or_introl eq_refl) 7%N delivered_order)
      as (Hanswer & Hstored & _); [vm_compute; reflexivity ..|].
    split; [rewrite Hanswer; reflexivity | exact Hstored].
Defined.


Lemma order_creation_gate_witness :
  prop order_request "items" = Some (VArr [zero_qty_item]) ∧
  post_orders order_request 8 5 one_order_store
  = (respond 201 (OrderJson 8 (new_order (VStr shop_a) (VStr "B") [ten_for_one] 10 5)),
     set_orders (<[8%N := new_order (VStr shop_a) (VStr "B") [ten_for_one] 10 5]>
                   (orders one_order_store)) one_order_store) ∧
  orders (post_orders order_request 8 5 one_order_store).2 !! 8%N
  = Some (new_order (VStr shop_a) (VStr "B") [ten_for_one] 10 5) ∧
  orders (post_orders order_request 8 5 one_order_store).2 !! 7%N
  = Some delivered_order.
Proof.
  split; [reflexivity|].
  destruct (order_creation_gate order_request (VStr shop_a) (VStr "B")
              (VArr [zero_qty_item]) 8 5 one_order_store eq_refl eq_refl eq_refl)
    as (_ & Hcreate & _ & _).
  destruct (Hcreate eq_refl eq_refl) with (parsedItems := [ten_for_one]) (total := 10%float)
    as (Hanswer & Hstored & Hothers);
    [discriminate | vm_compute; reflexivity ..|].
  split; [exact Hanswer|]. split; [exact Hstored|].
  rewrite (Hothers 7%N); [vm_compute; reflexivity | discriminate].
Defined.

Lemma delete_order_outcomes_witness :
  castObjectId (trim order_7) = Some 7%N ∧
  Revised.delete_order order_7 empty_store
  = (respond 404 (Deleted "Order not found" 0), empty_store) ∧
  Revised.delete_order order_7 one_order_store
  = (respond 200 (Deleted "Order deleted" 1),
     set_orders (delete 7%N (orders one_order_store)) one_order_store).
Proof.
  split; [vm_compute; reflexivity|]. split.
  - destruct (delete_order_outcomes order_7 empty_store 7) as [Hnone _];
      [vm_compute; reflexivity ..|].
    apply Hnone. vm_compute; reflexivity.
  - destruct (delete_order_outcomes order_7 one_order_store 7) as [_ Hsome];
      [vm_compute; reflexivity ..|].
    apply Hsome. exists delivered_order. vm_compute; reflexivity.
Defined.

(** C7 as stated fails on the earlier route: the identifier resolves to no
    record and the answer is 200, not 404. *)
Lemma delete_missing_answers_200 :
  orders empty_store !! 7%N = None ∧
  castObjectId (trim order_7) = Some 7%N ∧
  Earlier.delete_order order_7 empty_store
  = (respond 200 (Deleted "Order not found or already deleted" 0), empty_store) ∧
  code (Earlier.delete_order order_7 empty_store).1 ≠ 404%N.
Proof. repeat split; try (vm_compute; reflexivity). vm_compute. discriminate. Qed.

Lemma product_rejection_witness :
  prop soap_without_price "price" = Some VUndefined ∧
  code (Revised.post_products soap_without_price 1 0 empty_store).1 ≠ 400%N ∧
  code (Earlier.post_products soap_without_price 1 0 empty_store).1 = 400%N.
Proof.
  split; [reflexivity|].
  destruct (product_rejection soap_without_price (VStr "Soap") (VNum 10) VUndefined
              1 0 empty_store eq_refl eq_refl eq_refl) as (Hrev & Hearly & _).
  split.
  - intros Hcode. apply Hrev in Hcode as [Hname|Hmrp]; discriminate.
  - apply Hearly. right. right. reflexivity.
Defined.

(** C8 as stated fails on the earlier route: [name] and [mrp] are given,
    only [price] is absent, and the request is rejected with 400. *)
Lemma product_without_price_rejected :
  ToBoolean (VStr "Soap") = true ∧ is_nullish (VNum 10) = false ∧
  prop soap_without_price "name" = Some (VStr "Soap") ∧
  prop soap_without_price "mrp" = Some (VNum 10) ∧
  Earlier.post_products soap_without_price 1 0 empty_store
  = (respond 400 (Message "Name, MRP and price are required"), empty_store).
Proof. repeat split; vm_compute; reflexivity. Qed.

(** ** Scenarios *)

(** Items [[{price:"10", qty:"2"}]]: line total 20, order total 20. *)
Example ten_times_two :
  buildParsedItems [VObj [("price", VStr "10"); ("qty", VStr "2")]]
  = Some ([{| productId := VNull; productName := VUndefined; mrp := 0;
              price := 10; qty := 2; lineTotal := 20; note := VStr "" |}],
          20%float).
Proof. vm_compute. reflexivity. Qed.

(** Items [[{price:5}, {mrp:9, price:3, qty:0}]]: the second quantity
    becomes 1 and the total is 8. *)
Example zero_quantity_counts_as_one :
  snd <$> buildParsedItems
            [VObj [("price", VNum 5)];
             VObj [("mrp", VNum 9); ("price", VNum 3); ("qty", VNum 0)]]
  = Some 8%float.
Proof. vm_compute. reflexivity. Qed.

(** The product is the binary64 one: a tenth taken three times is not
    rounded to 0.3. *)
Example lineTotal_not_rounded :
  lineTotal <$> parseItem (VObj [("price", VNum 0x1.999999999999ap-4);
                                 ("qty", VNum 3)])
  = Some 0x1.3333333333334p-2%float.
Proof. vm_compute. reflexivity. Qed.

(** A quantity of infinity with no price gives a [NaN] line total, which
    the aggregator counts as 0. *)
Example nan_lineTotal_counts_as_zero :
  buildParsedItems [VObj [("qty", VNum PrimFloat.infinity)]]
  = Some ([{| productId := VNull; productName := VUndefined; mrp := 0;
              price := 0; qty := PrimFloat.infinity; lineTotal := PrimFloat.nan;
              note := VStr "" |}],
          0%float).
Proof. vm_compute. reflexivity. Qed.

(** The paths on which the normalizer throws: a [null] item, and a numeric
    field holding an object with an own [toString] key.  The order routes
    then answer 500 and store nothing. *)
Lemma parseItem_null `{JsRuntime} : parseItem VNull = None.
Proof. done. Qed.

Lemma parseItem_unconvertible `{JsRuntime} (fields : list (string * value)) (v : value) :
  parseItem (VObj [("qty", VObj (("toString", v) :: fields))]) = None.
Proof. done. Qed.

Lemma post_orders_null_item `{JsRuntime} `{Mongoose} (sid : value) (oid now : N)
    (st : Store) :
  ToBoolean sid = true →
  post_orders (VObj [("shopId", sid); ("items", VArr [VNull])]) oid now st
  = (respond 500 (Message "Error creating order"), st).
Proof. intros Hs. unfold post_orders. simpl. by rewrite Hs. Qed.

(** ** The further properties on concrete requests *)

Import Fixtures.

Lemma flat_zero_qty_item : flat_item zero_qty_item.
Proof.
  split; [reflexivity|]. intros k Hk.
  repeat (apply elem_of_cons in Hk as [->|Hk]; [reflexivity|]).
  by apply elem_of_nil in Hk.
Defined.

Lemma normalizer_returns_on_flat_items_witness :
  ∃ parsedItems total,
    buildParsedItems [zero_qty_item] = Some (parsedItems, total) ∧
    length parsedItems = 1.
Proof.
  apply (normalizer_returns_on_flat_items [zero_qty_item]).
  constructor; [exact flat_zero_qty_item | constructor].
Defined.

Lemma normalizer_throws_on_null_item_witness :
  buildParsedItems [zero_qty_item; VNull] = None.
Proof.
  apply (normalizer_throws_on_null_item [zero_qty_item; VNull]).
  apply Exists_cons_tl, Exists_cons_hd. reflexivity.
Defined.

Lemma normalizer_keeps_positions_witness :
  [ten_for_one] !! 0 = [zero_qty_item] !! 0 ≫= parseItem.
Proof.
  apply (normalizer_keeps_positions [zero_qty_item] [ten_for_one] 10 0).
  vm_compute; reflexivity.
Defined.

Lemma normalized_item_invariants_witness :
  parseItem zero_qty_item = Some ten_for_one ∧ truthy_num (qty ten_for_one) = true.
Proof.
  split; [vm_compute; reflexivity|].
  apply (normalized_item_invariants zero_qty_item ten_for_one).
  vm_compute; reflexivity.
Defined.

Lemma total_of_falsy_lines_witness :
  buildParsedItems [VObj []] = Some ([free_item], 0%float) ∧ 0%float = PrimFloat.zero.
Proof.
  split; [vm_compute; reflexivity|].
  apply (total_of_falsy_lines [VObj []] [free_item] 0).
  - vm_compute; reflexivity.
  - constructor; [vm_compute; reflexivity | constructor].
Defined.

Lemma total_of_one_line_witness :
  ∃ r, [ten_for_one] = [r] ∧
       10%float = (if truthy_num (lineTotal r) then lineTotal r else PrimFloat.zero).
Proof.
  apply (total_of_one_line zero_qty_item [ten_for_one] 10).
  vm_compute; reflexivity.
Defined.

Lemma one_order_store_statuses : statuses_valid one_order_store.
Proof.
  intros oid o Ho. unfold one_order_store in Ho. simpl in Ho.
  apply lookup_singleton_Some in Ho as [_ <-]. right. left. reflexivity.
Defined.

Lemma statuses_stay_valid_witness :
  statuses_valid
    (handle revised (PatchOrderStatus order_7 (VObj [("status", VStr "Pending")]))
            one_order_store).2.
Proof.
  apply (statuses_stay_valid revised _ one_order_store).
  exact one_order_store_statuses.
Defined.

Lemma error_leaves_store_witness :
  (handle revised (PatchOrderStatus order_7 (VObj [("status", VStr "Shipped")]))
          one_order_store).2 = one_order_store.
Proof.
  apply (error_leaves_store revised _ one_order_store).
  left. vm_compute; reflexivity.
Defined.

Lemma one_order_store_consistent : store_consistent one_order_store.
Proof.
  intros oid o Ho. unfold one_order_store in Ho. simpl in Ho.
  apply lookup_singleton_Some in Ho as [_ <-].
  split; [discriminate|]. split; [|vm_compute; reflexivity].
  constructor; [vm_compute; reflexivity | constructor].
Defined.

Lemma orders_stay_consistent_witness :
  store_consistent (handle revised (PutOrder order_7 order_request) one_order_store).2.
Proof.
  apply (orders_stay_consistent revised _ one_order_store).
  exact one_order_store_consistent.
Defined.

Lemma status_change_unknown_order_witness :
  patch_order_status order_7 (VObj [("status", VStr "Pending")]) empty_store
  = (respond 404 (Message "Order not found"), empty_store).
Proof.
  apply (status_change_unknown_order order_7 _ (VStr "Pending") empty_store 7);
    try (vm_compute; reflexivity).
  left. reflexivity.
Defined.

Lemma full_replace_unknown_order_witness :
  put_order order_7 order_request empty_store
  = (respond 404 (Message "Order not found"), empty_store).
Proof.
  apply (full_replace_unknown_order order_7 order_request (VStr shop_a) (VStr "B")
           (VArr [zero_qty_item]) empty_store [ten_for_one] 10 7);
    first [discriminate | vm_compute; reflexivity].
Defined.

Lemma order_contents_frame_witness :
  createdAt pending_order = createdAt delivered_order ∧
  items pending_order = items delivered_order.
Proof.
  destruct (order_contents_frame revised
              (PatchOrderStatus order_7 (VObj [("status", VStr "Pending")]))
              one_order_store 7 delivered_order pending_order)
    as [Hcreated Hrest]; [vm_compute; reflexivity ..|].
  destruct (Hrest eq_refl) as (_ & _ & Hitems & _).
  split; [exact Hcreated | exact Hitems].
Defined.

Lemma create_then_delete_witness :
  (handle revised (DeleteOrder order_8) (post_orders order_request 8 5 one_order_store).2).2
  = one_order_store.
Proof.
  apply (create_then_delete revised order_request 8 5 order_8 one_order_store);
    vm_compute; reflexivity.
Defined.

Lemma delete_twice_witness :
  Revised.delete_order order_7 (Revised.delete_order order_7 one_order_store).2
  = (respond 404 (Deleted "Order not found" 0),
     (Revised.delete_order order_7 one_order_store).2).
Proof.
  apply (delete_twice order_7 one_order_store 7); vm_compute; reflexivity.
Defined.

Lemma product_routes_agree_witness :
  Earlier.post_products soap 1 0 empty_store = Revised.post_products soap 1 0 empty_store.
Proof.
  destruct (product_routes_agree soap (VNum 8) VUndefined 1 0 empty_store)
    as (_ & _ & Hsame); [vm_compute; reflexivity ..|].
  apply Hsame. vm_compute; reflexivity.
Defined.

Lemma product_name_not_a_string_witness :
  Revised.post_products numbered_product 1 0 empty_store
  = (respond 500 (Message "Error creating product"), empty_store).
Proof.
  apply (product_name_not_a_string numbered_product (VNum 5) (VNum 10) (VNum 8)
           1 0 empty_store); try (vm_compute; reflexivity).
  intros s. discriminate.
Defined.

Lemma product_created_witness :
  ∃ s p, VStr " Soap " = VStr s ∧
         products (Revised.post_products soap 1 0 empty_store).2 !! 1%N = Some p ∧
         pr_name p = trim s.
Proof.
  destruct (product_created soap (VStr " Soap ") (VNum 8) VUndefined 1 0 empty_store)
    as (s & p & Hs & Hp & Hn & _); [vm_compute; reflexivity ..|].
  exists s, p. split; [exact Hs|]. split; [exact Hp | exact Hn].
Defined.

Lemma shop_creation_witness :
  post_shops corner_shop 3 9 no_shops
  = ({| sh_code := 201;
        sh_body := ShopJson 3 {| sh_name := "Corner"; sh_createdAt := 9 |} |},
     {| store := empty_store;
        shops := <[3%N := {| sh_name := "Corner"; sh_createdAt := 9 |}]> ∅ |}).
Proof.
  destruct (shop_creation corner_shop (VStr " Corner ") 3 9 no_shops eq_refl)
    as (_ & _ & Hcreated).
  apply (Hcreated " Corner " eq_refl); first [discriminate | vm_compute; reflexivity].
Defined.

Lemma shops_listed_by_name_witness :
  ∃ docs, get_shops (post_shops corner_shop 3 9 no_shops).2 = Listed docs ∧
          NoDup docs ∧ Sorted by_shop_name docs.
Proof.
  destruct (shops_listed_by_name (post_shops corner_shop 3 9 no_shops).2)
    as (docs & Hdocs & Hnodup & Hsorted & _); [vm_compute; reflexivity|].
  exists docs. split; [exact Hdocs|]. split; [exact Hnodup | exact Hsorted].
Defined.

Lemma products_listed_by_name_witness :
  ∃ docs, get_products (Revised.post_products soap 1 0 empty_store).2 = Listed docs ∧
          ∀ pid p, (pid, p) ∈ docs ↔
                   products (Revised.post_products soap 1 0 empty_store).2 !! pid = Some p.
Proof.
  destruct (products_listed_by_name (Revised.post_products soap 1 0 empty_store).2)
    as (docs & Hdocs & _ & _ & Hin); [vm_compute; reflexivity|].
  exists docs. split; [exact Hdocs | exact Hin].
Defined.

Lemma created_shop_is_listed_witness :
  ∃ s docs, sh_body (post_shops corner_shop 3 9 no_shops).1 = ShopJson 3 s ∧
            get_shops (post_shops corner_shop 3 9 no_shops).2 = Listed docs ∧
            (3%N, s) ∈ docs.
Proof.
  apply (created_shop_is_listed corner_shop 3 9 no_shops). vm_compute; reflexivity.
Defined.

Lemma orders_listed_witness :
  ∃ docs, get_orders (Some shop_a) (Some "Pending") one_order_store = Listed docs ∧
          ∀ oid o, (oid, o) ∈ docs → status o = VStr "Pending".
Proof.
  destruct (orders_listed (Some shop_a) (Some "Pending") one_order_store)
    as (docs & Hdocs & _ & _ & Hin).
  - vm_compute; reflexivity.
  - intros s [= <-]. exists (Z.to_N 0x0123456789abcdef01234567). vm_compute; reflexivity.
  - exists docs. split; [exact Hdocs|]. intros oid o Ho.
    apply Hin in Ho as (_ & _ & Hstatus). apply Hstatus. reflexivity.
Defined.
